(** * Insider-threat detection: a shallow embedding of the two scripts

    [src/Insider_Threat_Detection.py] and [src/unnamed/part_000] (whose header
    names it [Inside_Threat_ Detection.py]) each define one function,
    [identify_insider_threats], on top of pandas.  The pandas operations the
    scripts call are modelled in [Module Pandas]; each script is then
    translated statement by statement in a module of its own.

    Modelling conventions.
    - A timestamp is an integer number of nanoseconds since the epoch, as in
      a [datetime64[ns]] column.
    - A data frame is the list of its rows, in row order.
    - Arithmetic on [float64] values is exact: a float is either [NaN] or a
      real number.  Rounding is not modelled; the undefined results pandas
      reports as [NaN] are.
    - Python exceptions are values of [Exception], threaded through an error
      monad; [print] and [logging] output is not modelled, since it never
      influences a returned value. *)

From Stdlib Require Import ZArith List String Ascii Bool Lia.
From Stdlib Require Import Reals Lra Psatz.
From Stdlib Require Import Permutation Sorted OrderedTypeEx.
Import ListNotations.

Open Scope Z_scope.

(* ================================================================== *)
(** ** The pandas operations used by the scripts *)
(* ================================================================== *)

Module Pandas.

(** Nanoseconds since 1970-01-01T00:00:00. *)
Definition Timestamp := Z.

Definition ns_per_day : Z := 86400000000000.

(** One bin of [resample('1H')]. *)
Definition ns_per_hour : Z := 3600000000000.

(** Days from the epoch to the civil date [y]-[m]-[d] (proleptic Gregorian
    calendar), the arithmetic behind [datetime(y, m, d)]. *)
Definition days_from_civil (y m d : Z) : Z :=
  let y' := if m <=? 2 then y - 1 else y in
  let era := y' / 400 in
  let yoe := y' - era * 400 in
  let mp := (m + 9) mod 12 in
  let doy := (153 * mp + 2) / 5 + d - 1 in
  let doe := yoe * 365 + yoe / 4 - yoe / 100 + doy in
  era * 146097 + doe - 719468.

(** [datetime(y, m, d)]: midnight at the start of that day. *)
Definition datetime (y m d : Z) : Timestamp :=
  days_from_civil y m d * ns_per_day.

(** One row of the access log after [pd.to_datetime]; the fields are the
    columns the scripts read. *)
Record Event : Type := mkEvent {
  useridentity : string;
  eventtype : string;
  eventtime : Timestamp;
  system : string
}.

Definition DataFrame := list Event.

(** A Series indexed by user identity, in index order. *)
Definition Series (V : Type) := list (string * V).

Definition index {V : Type} (s : Series V) : list string := map fst s.
Definition values {V : Type} (s : Series V) : list V := map snd s.

(** *** Exceptions *)

Inductive Exception : Type :=
| FileNotFoundError
| EmptyDataError
| KeyError (column : string)
| ValueError.

Inductive result (A : Type) : Type :=
| Ok (a : A)
| Raise (e : Exception).

Arguments Ok {A} a.
Arguments Raise {A} e.

Definition bind {A B : Type} (m : result A) (k : A -> result B) : result B :=
  match m with
  | Ok a => k a
  | Raise e => Raise e
  end.

Notation "x <- m ;; k" := (bind m (fun x => k))
  (at level 61, m at next level, right associativity).
Notation "m ;;; k" := (bind m (fun _ => k))
  (at level 61, right associativity).

(** *** Reading the log *)

(** A row as [read_csv] delivers it: the time cell is text, represented by
    the instant it parses to, or [None] when [pd.to_datetime] rejects it. *)
Record RawRecord : Type := mkRaw {
  raw_useridentity : string;
  raw_eventtype : string;
  raw_eventtime : option Timestamp;
  raw_system : string
}.

(** A CSV file: its header and its rows.  A field of a column the header
    does not list is never read. *)
Record CsvFile : Type := mkCsv {
  columns : list string;
  records : list RawRecord
}.

(** The files that exist, by path. *)
Definition FileSystem := string -> option CsvFile.

Definition isin (x : string) (l : list string) : bool :=
  existsb (String.eqb x) l.

(** [pd.read_csv]: a missing file and a file with nothing to parse raise. *)
Definition read_csv (fs : FileSystem) (path : string) : result CsvFile :=
  match fs path with
  | None => Raise FileNotFoundError
  | Some f =>
      match columns f with
      | [] => Raise EmptyDataError
      | _ :: _ => Ok f
      end
  end.

(** [frame[c]] on a frame without column [c]. *)
Definition getitem (c : string) (f : CsvFile) : result unit :=
  if isin c (columns f) then Ok tt else Raise (KeyError c).

(** [pd.to_datetime] over the time column. *)
Fixpoint to_datetime (rs : list RawRecord) : result DataFrame :=
  match rs with
  | [] => Ok []
  | r :: rs' =>
      match raw_eventtime r with
      | None => Raise ValueError
      | Some t =>
          rest <- to_datetime rs' ;;
          Ok (mkEvent (raw_useridentity r) (raw_eventtype r) t (raw_system r)
                :: rest)
      end
  end.

(** *** Grouping *)

(** Insertion of a key into a strictly increasing list of keys. *)
Fixpoint insert_key (u : string) (ks : list string) : list string :=
  match ks with
  | [] => [u]
  | k :: ks' =>
      match String.compare u k with
      | Lt => u :: ks
      | Eq => ks
      | Gt => k :: insert_key u ks'
      end
  end.

(** The group keys of [groupby]: the distinct values, ascending. *)
Definition group_keys (l : list string) : list string :=
  fold_right insert_key [] l.

(** [df.groupby('useridentity')]: one sub-frame per user, keys ascending,
    each sub-frame in row order. *)
Definition groupby_useridentity (df : DataFrame) : Series DataFrame :=
  map (fun u => (u, filter (fun e => String.eqb (useridentity e) u) df))
      (group_keys (map useridentity df)).

(** [grouped[col].count()]: the number of rows of each group. *)
Definition count (g : Series DataFrame) : Series Z :=
  map (fun '(u, rows) => (u, Z.of_nat (List.length rows))) g.

(** [grouped.apply(f)]. *)
Definition apply {V : Type} (g : Series DataFrame) (f : DataFrame -> V)
  : Series V :=
  map (fun '(u, rows) => (u, f rows)) g.

(** *** Descriptive statistics *)

Inductive float64 : Type :=
| NaN
| Fin (x : R).

Definition fadd (a b : float64) : float64 :=
  match a, b with
  | Fin x, Fin y => Fin (x + y)
  | _, _ => NaN
  end.

Definition fmul (a b : float64) : float64 :=
  match a, b with
  | Fin x, Fin y => Fin (x * y)
  | _, _ => NaN
  end.

Definition sum (l : list Z) : Z := fold_right Z.add 0 l.

(** The sum of the squared deviations from [m]. *)
Definition sum_sq_dev (m : R) (l : list Z) : R :=
  fold_right (fun x acc => ((IZR x - m) * (IZR x - m) + acc)%R) 0%R l.

(** [Series.mean()]. *)
Definition mean (l : list Z) : float64 :=
  match l with
  | [] => NaN
  | _ :: _ => Fin (IZR (sum l) / IZR (Z.of_nat (List.length l)))
  end.

(** [Series.std()]: the sample standard deviation ([ddof = 1]), which is
    [NaN] when there are not more than [ddof] values. *)
Definition std (l : list Z) : float64 :=
  let n := Z.of_nat (List.length l) in
  if n <=? 1 then NaN
  else
    let avg := (IZR (sum l) / IZR n)%R in
    Fin (sqrt (sum_sq_dev avg l / IZR (n - 1))).

(** [count > threshold] for an integer count; false against [NaN]. *)
Definition gt (c : Z) (t : float64) : bool :=
  match t with
  | NaN => false
  | Fin x => if Rgt_dec (IZR c) x then true else false
  end.

(** *** Resampling *)

(** The integers [lo], [lo + 1], ..., [lo + n - 1]. *)
Fixpoint zrange (lo : Z) (n : nat) : list Z :=
  match n with
  | O => []
  | S n' => lo :: zrange (lo + 1) n'
  end.

(** The hour bin a timestamp falls in. *)
Definition hour_bin (t : Timestamp) : Z := t / ns_per_hour.

Definition maximum (l : list Z) : option Z :=
  match l with
  | [] => None
  | x :: l' => Some (fold_left Z.max l' x)
  end.

Definition minimum (l : list Z) : option Z :=
  match l with
  | [] => None
  | x :: l' => Some (fold_left Z.min l' x)
  end.

(** [df.set_index('eventtime').resample('1H')]: the rows of every
    hour-aligned bin from the bin of the earliest row to the bin of the
    latest, empty bins included. *)
Definition resample_1H (df : DataFrame) : list DataFrame :=
  let bins := map (fun e => hour_bin (eventtime e)) df in
  match minimum bins, maximum bins with
  | Some lo, Some hi =>
      map (fun h => filter (fun e => hour_bin (eventtime e) =? h) df)
          (zrange lo (Z.to_nat (hi - lo + 1)))
  | _, _ => []
  end.

(** The distinct elements, first occurrences kept. *)
Fixpoint unique (l : list string) : list string :=
  match l with
  | [] => []
  | x :: l' => if isin x l' then unique l' else x :: unique l'
  end.

(** [column.nunique()]. *)
Definition nunique (l : list string) : Z := Z.of_nat (List.length (unique l)).

(** [>=] on the result of [max()], which is [NaN] for an empty selection. *)
Definition ge (m : option Z) (t : Z) : bool :=
  match m with
  | None => false
  | Some v => t <=? v
  end.

(** *** Sorting *)

(** The order of [sort_values(by=['useridentity', 'eventtime'])]. *)
Definition key_leb (a b : Event) : bool :=
  match String.compare (useridentity a) (useridentity b) with
  | Lt => true
  | Eq => eventtime a <=? eventtime b
  | Gt => false
  end.

Fixpoint insert_sorted (e : Event) (l : DataFrame) : DataFrame :=
  match l with
  | [] => [e]
  | x :: l' => if key_leb e x then e :: l else x :: insert_sorted e l'
  end.

(** Sorting by several columns is stable: rows with equal keys keep their
    order. *)
Definition sort_values (df : DataFrame) : DataFrame :=
  fold_right insert_sorted [] df.

(** *** Module namespaces *)

(** The value of a name bound in a module's namespace once the module is
    loaded. *)
Inductive Global : Type :=
| GFunction
| GString (s : string)
| GList (l : list string)
| GResult (r : option DataFrame).

End Pandas.

(* ================================================================== *)
(** ** [src/Insider_Threat_Detection.py] *)
(* ================================================================== *)

Module Insider_Threat_Detection.
Import Pandas.

Definition default_threshold_factor : R := 3%R.

(** Lines 30-33: the dates used when the caller passes [None]. *)
Definition start_date_or_default (start_date : option Timestamp) : Timestamp :=
  match start_date with
  | None => datetime 2022 1 1
  | Some d => d
  end.

Definition end_date_or_default (end_date : option Timestamp) : Timestamp :=
  match end_date with
  | None => datetime 2022 7 1
  | Some d => d
  end.

(** Line 36. *)
Definition filter_period (start_date end_date : Timestamp)
    (access_logs : DataFrame) : DataFrame :=
  filter (fun e => (start_date <=? eventtime e) && (eventtime e <? end_date))
         access_logs.

(** Lines 39-40. *)
Definition user_sensitive_event_counts (sensitive_events : list string)
    (access_logs : DataFrame) : Series Z :=
  count (groupby_useridentity
           (filter (fun e => isin (eventtype e) sensitive_events) access_logs)).

(** Line 44. *)
Definition threshold (threshold_factor : R) (counts : Series Z) : float64 :=
  fadd (mean (values counts))
       (fmul (Fin threshold_factor) (std (values counts))).

(** Line 47. *)
Definition suspected_insiders (threshold_factor : R) (counts : Series Z)
  : Series Z :=
  filter (fun uc => gt (snd uc) (threshold threshold_factor counts)) counts.

(** The [return] statement the call leaves through. *)
Inductive Exit : Type :=
| InvalidInput                      (* line 20 *)
| Suspects (s : Series Z)           (* line 49 *)
| NoSensitiveEvents                 (* line 51 *)
| Caught (e : Exception).           (* lines 55, 58, 61, 64 *)

(** The body of the [try] block, lines 24-51. *)
Definition try_block (fs : FileSystem) (access_logs_file : string)
    (sensitive_events : list string) (start_date end_date : option Timestamp)
    (threshold_factor : R) : result Exit :=
  csv <- read_csv fs access_logs_file ;;
  getitem "eventtime" csv ;;;
  access_logs <- to_datetime (records csv) ;;
  let start_date := start_date_or_default start_date in
  let end_date := end_date_or_default end_date in
  let access_logs := filter_period start_date end_date access_logs in
  getitem "eventtype" csv ;;;
  getitem "useridentity" csv ;;;
  let counts := user_sensitive_event_counts sensitive_events access_logs in
  match counts with
  | _ :: _ => Ok (Suspects (suspected_insiders threshold_factor counts))
  | [] => Ok NoSensitiveEvents
  end.

(** The whole function, as the exit it takes. *)
Definition run (fs : FileSystem) (access_logs_file : string)
    (sensitive_events : list string) (start_date end_date : option Timestamp)
    (threshold_factor : R) : Exit :=
  if (String.eqb access_logs_file "") || (Nat.eqb (List.length sensitive_events) 0)
  then InvalidInput
  else
    match try_block fs access_logs_file sensitive_events start_date end_date
                    threshold_factor with
    | Ok exit => exit
    | Raise e => Caught e
    end.

(** The value each [return] hands to the caller. *)
Definition returned (x : Exit) : option (Series Z) :=
  match x with
  | Suspects s => Some s
  | InvalidInput | NoSensitiveEvents | Caught _ => None
  end.

Definition identify_insider_threats (fs : FileSystem)
    (access_logs_file : string) (sensitive_events : list string)
    (start_date end_date : option Timestamp) (threshold_factor : R)
  : option (Series Z) :=
  returned (run fs access_logs_file sensitive_events start_date end_date
                threshold_factor).

(** Loading the file: besides the imports, the only statement at module
    level is the [def]. *)
Definition load_module (fs : FileSystem) : list (string * Global) :=
  [("identify_insider_threats"%string, GFunction)].

End Insider_Threat_Detection.

(* ================================================================== *)
(** ** [src/unnamed/part_000] *)
(* ================================================================== *)

Module Inside_Threat_Detection.
Import Pandas.

Definition default_lateral_threshold : Z := 5.
Definition default_threshold_factor : R := 3%R.

(** Lines 36-39. *)
Definition start_date_or_default (start_date : option Timestamp) : Timestamp :=
  match start_date with
  | None => datetime 2022 1 1
  | Some d => d
  end.

Definition end_date_or_default (end_date : option Timestamp) : Timestamp :=
  match end_date with
  | None => datetime 2022 7 1
  | Some d => d
  end.

(** Line 42. *)
Definition filter_period (start_date end_date : Timestamp)
    (access_logs : DataFrame) : DataFrame :=
  filter (fun e => (start_date <=? eventtime e) && (eventtime e <? end_date))
         access_logs.

(** Lines 45-46. *)
Definition user_sensitive_event_counts (sensitive_events : list string)
    (access_logs : DataFrame) : Series Z :=
  count (groupby_useridentity
           (filter (fun e => isin (eventtype e) sensitive_events) access_logs)).

(** Line 49. *)
Definition threshold (threshold_factor : R) (counts : Series Z) : float64 :=
  fadd (mean (values counts))
       (fmul (Fin threshold_factor) (std (values counts))).

(** Line 52. *)
Definition suspected_insiders (threshold_factor : R) (counts : Series Z)
  : Series Z :=
  filter (fun uc => gt (snd uc) (threshold threshold_factor counts)) counts.

(** Lines 55-57. *)
Definition lateral_movements (access_logs : DataFrame) : Series (option Z) :=
  apply (groupby_useridentity access_logs)
        (fun df =>
           maximum (map (fun bin => nunique (map system bin))
                        (resample_1H df))).

(** Line 58. *)
Definition lateral_movement_suspects (lateral_threshold : Z)
    (access_logs : DataFrame) : Series (option Z) :=
  filter (fun um => ge (snd um) lateral_threshold)
         (lateral_movements access_logs).

(** Line 60. *)
Definition combined_suspects (suspected : Series Z)
    (lateral : Series (option Z)) : list string :=
  filter (fun u => isin u (index lateral)) (index suspected).

(** Line 62. *)
Definition incidents (combined : list string) (access_logs : DataFrame)
  : DataFrame :=
  filter (fun e => isin (useridentity e) combined) access_logs.

(** Line 63. *)
Definition incidents_sorted (combined : list string) (access_logs : DataFrame)
  : DataFrame :=
  sort_values (incidents combined access_logs).

(** The [return] statement the call leaves through. *)
Inductive Exit : Type :=
| InvalidInput                      (* line 27 *)
| Incidents (df : DataFrame)        (* line 64 *)
| NoCombinedSuspects                (* line 66 *)
| NoSensitiveEvents                 (* line 69 *)
| Caught (e : Exception).           (* lines 73, 76, 79, 82 *)

(** Lines 58-66: the lateral-movement suspects, the intersection and the
    incidents, once the suspected insiders are known. *)
Definition correlate (lateral_threshold : Z) (suspected : Series Z)
    (access_logs : DataFrame) : Exit :=
  let lateral := lateral_movement_suspects lateral_threshold access_logs in
  let combined := combined_suspects suspected lateral in
  match combined with
  | _ :: _ => Incidents (incidents_sorted combined access_logs)
  | [] => NoCombinedSuspects
  end.

(** The body of the [try] block, lines 30-69. *)
Definition try_block (fs : FileSystem) (access_logs_file : string)
    (sensitive_events : list string) (lateral_threshold : Z)
    (start_date end_date : option Timestamp) (threshold_factor : R)
  : result Exit :=
  csv <- read_csv fs access_logs_file ;;
  getitem "eventtime" csv ;;;
  access_logs <- to_datetime (records csv) ;;
  let start_date := start_date_or_default start_date in
  let end_date := end_date_or_default end_date in
  let access_logs := filter_period start_date end_date access_logs in
  getitem "eventtype" csv ;;;
  getitem "useridentity" csv ;;;
  let counts := user_sensitive_event_counts sensitive_events access_logs in
  match counts with
  | _ :: _ =>
      let suspected := suspected_insiders threshold_factor counts in
      getitem "system" csv ;;;
      Ok (correlate lateral_threshold suspected access_logs)
  | [] => Ok NoSensitiveEvents
  end.

(** The whole function, as the exit it takes. *)
Definition run (fs : FileSystem) (access_logs_file : string)
    (sensitive_events : list string) (lateral_threshold : Z)
    (start_date end_date : option Timestamp) (threshold_factor : R) : Exit :=
  if (String.eqb access_logs_file "") || (Nat.eqb (List.length sensitive_events) 0)
  then InvalidInput
  else
    match try_block fs access_logs_file sensitive_events lateral_threshold
                    start_date end_date threshold_factor with
    | Ok exit => exit
    | Raise e => Caught e
    end.

(** The value each [return] hands to the caller. *)
Definition returned (x : Exit) : option DataFrame :=
  match x with
  | Incidents df => Some df
  | InvalidInput | NoCombinedSuspects | NoSensitiveEvents | Caught _ => None
  end.

Definition identify_insider_threats (fs : FileSystem)
    (access_logs_file : string) (sensitive_events : list string)
    (lateral_threshold : Z) (start_date end_date : option Timestamp)
    (threshold_factor : R) : option DataFrame :=
  returned (run fs access_logs_file sensitive_events lateral_threshold
                start_date end_date threshold_factor).

(** Lines 85-89: the statements at module level, run when the file is
    loaded, and the names they bind. *)
Definition load_module (fs : FileSystem)
  : list (string * Global) :=
  let access_logs_file := "your_real_access_logs.csv"%string in
  let sensitive_events := ["sensitive_read"; "sensitive_write"]%string in
  let suspected_insiders :=
    identify_insider_threats fs access_logs_file sensitive_events
      default_lateral_threshold None None default_threshold_factor in
  [("identify_insider_threats"%string, GFunction);
   ("access_logs_file"%string, GString access_logs_file);
   ("sensitive_events"%string, GList sensitive_events);
   ("suspected_insiders"%string, GResult suspected_insiders)].

End Inside_Threat_Detection.

(* ================================================================== *)
(** ** The properties, in the words of the specification *)
(* ================================================================== *)

Module Spec.
Import Pandas.


(** The number of events of user [u] whose type is in the sensitive set. *)
Definition sensitive_count (sensitive_events : list string)
    (access_logs : DataFrame) (u : string) : Z :=
  Z.of_nat
    (List.length
       (filter (fun e => String.eqb (useridentity e) u
                         && isin (eventtype e) sensitive_events)
               access_logs)).







(** The index of a grouped Series: ascending, without repetition. *)
Definition strictly_increasing : list string -> Prop :=
  StronglySorted (fun a b => String.compare a b = Lt).

(** The call passes the guard, finds the file, finds the three columns both
    scripts read and parses every time cell: it reaches scoring, on the
    parsed log [access_logs]. *)
Definition loads (fs : FileSystem) (access_logs_file : string)
    (sensitive_events : list string) (csv : CsvFile)
    (access_logs : DataFrame) : Prop :=
  access_logs_file <> ""%string
  /\ sensitive_events <> []
  /\ fs access_logs_file = Some csv
  /\ isin "eventtime" (columns csv) = true
  /\ isin "eventtype" (columns csv) = true
  /\ isin "useridentity" (columns csv) = true
  /\ to_datetime (records csv) = Ok access_logs.

(** The value bound to a name after a module is loaded. *)
Fixpoint lookup (name : string) (globals : list (string * Global))
  : option Global :=
  match globals with
  | [] => None
  | (n, v) :: rest => if String.eqb n name then Some v else lookup name rest
  end.

End Spec.

(* ================================================================== *)
(** ** Deciding the threshold test *)
(* ================================================================== *)

Module Decide.
Import Pandas.

Definition sum_sq (l : list Z) : Z := fold_right (fun x acc => x * x + acc) 0 l.

(** [exceedsb k l c] decides [c > mean l + k * std l] for an integer
    factor [k] without square roots.  With [n] values of sum [s] and sum
    of squares [q], the test is [L > k * sqrt W] for
    [L = (n c - s) (n - 1)] and [W = n (n - 1) (n q - s^2)]. *)
Definition exceedsb (k : Z) (l : list Z) (c : Z) : bool :=
  let n := Z.of_nat (List.length l) in
  if n <=? 1 then false
  else
    let L := (n * c - sum l) * (n - 1) in
    let W := n * (n - 1) * (n * sum_sq l - sum l * sum l) in
    if 0 <=? k then (0 <? L) && (k * k * W <? L * L)
    else (0 <? L) || (L * L <? k * k * W).

End Decide.

(* ================================================================== *)
(** ** Example logs *)
(* ================================================================== *)

Module Examples.
Import Pandas.

Definition header : list string :=
  ["eventtime"; "eventtype"; "useridentity"; "system"]%string.

(** 2022-03-01T09:00:00. *)
Definition nine_am : Timestamp := datetime 2022 3 1 + 9 * ns_per_hour.

Definition minute : Z := 60000000000.

Definition no_files : FileSystem := fun _ => None.

Definition one_file (name : string) (csv : CsvFile) : FileSystem :=
  fun path => if String.eqb path name then Some csv else None.



(** A log in which only one user has sensitive events. *)
Definition solo_logs : DataFrame :=
  [mkEvent "alice" "read" nine_am "db1";
   mkEvent "alice" "read" (nine_am + minute) "db1";
   mkEvent "bob" "login" nine_am "web"].

(** Two events of one user at the same instant. *)
Definition tie_first : Event := mkEvent "alice" "read" nine_am "db1".
Definition tie_second : Event := mkEvent "alice" "read" nine_am "db2".

Definition tie_csv : CsvFile :=
  mkCsv header
    [mkRaw "alice" "read" (Some nine_am) "db1";
     mkRaw "alice" "read" (Some nine_am) "db2";
     mkRaw "bob" "read" (Some nine_am) "db1"].

Definition tie_logs : DataFrame :=
  [tie_first; tie_second; mkEvent "bob" "read" nine_am "db1"].

(** Ten users with one sensitive read each, and one user with five
    sensitive writes on five systems within five minutes. *)
Definition demo_bystanders : list string :=
  ["u00"; "u01"; "u02"; "u03"; "u04"; "u05"; "u06"; "u07"; "u08"; "u09"]%string.

Definition demo_trail : list (Z * string) :=
  [(0, "hr"); (1, "payroll"); (2, "crm"); (3, "git"); (4, "vault")]%string.

Definition demo_csv : CsvFile :=
  mkCsv header
    (map (fun u => mkRaw u "sensitive_read" (Some nine_am) "gateway")
         demo_bystanders
     ++ map (fun ks => mkRaw "mallory" "sensitive_write"
                         (Some (nine_am + fst ks * minute)) (snd ks))
            demo_trail).

Definition demo_logs : DataFrame :=
  map (fun u => mkEvent u "sensitive_read" nine_am "gateway") demo_bystanders
  ++ map (fun ks => mkEvent "mallory" "sensitive_write"
                      (nine_am + fst ks * minute) (snd ks))
         demo_trail.

Definition demo_incidents : DataFrame :=
  map (fun ks => mkEvent "mallory" "sensitive_write"
                   (nine_am + fst ks * minute) (snd ks))
      demo_trail.

End Examples.

(* ================================================================== *)
(** ** Facts about the pandas operations *)
(* ================================================================== *)

Import Pandas.

Section StringOrder.

Lemma compare_refl (s : string) : String.compare s s = Eq.
Proof. now apply String_as_OT.cmp_eq. Qed.

Lemma compare_lt_trans (a b c : string) :
  String.compare a b = Lt -> String.compare b c = Lt -> String.compare a c = Lt.
Proof.
  intros Hab Hbc.
  apply String_as_OT.cmp_lt.
  apply String_as_OT.lt_trans with b; now apply String_as_OT.cmp_lt.
Qed.

Lemma compare_gt_lt (a b : string) :
  String.compare a b = Gt <-> String.compare b a = Lt.
Proof.
  rewrite (String.compare_antisym a b).
  destruct (String.compare b a); simpl; split; congruence.
Qed.

Lemma compare_lt_irrefl (a : string) : String.compare a a <> Lt.
Proof. rewrite compare_refl. discriminate. Qed.

End StringOrder.

Lemma isin_In (x : string) (l : list string) : isin x l = true <-> In x l.
Proof.
  unfold isin. rewrite existsb_exists. split.
  - intros [y [Hy Heq]]. apply String.eqb_eq in Heq. now subst.
  - intros H. exists x. split; [assumption | apply String.eqb_refl].
Qed.


Section GroupKeys.

Lemma insert_key_In (u v : string) (ks : list string) :
  In u (insert_key v ks) <-> u = v \/ In u ks.
Proof.
  induction ks as [|k ks IH]; simpl.
  - intuition.
  - destruct (String.compare v k) eqn:E; simpl.
    + apply String.compare_eq_iff in E. subst. intuition.
    + intuition.
    + rewrite IH. intuition.
Qed.

Lemma group_keys_In (u : string) (l : list string) :
  In u (group_keys l) <-> In u l.
Proof.
  induction l as [|x l IH]; simpl.
  - tauto.
  - rewrite insert_key_In, IH. intuition.
Qed.

Lemma insert_key_sorted (v : string) (ks : list string) :
  Spec.strictly_increasing ks -> Spec.strictly_increasing (insert_key v ks).
Proof.
  unfold Spec.strictly_increasing.
  induction ks as [|k ks IH]; simpl; intros Hs.
  - constructor; constructor.
  - inversion Hs as [|? ? Hks Hall]; subst.
    destruct (String.compare v k) eqn:E.
    + assumption.
    + constructor; [assumption|].
      constructor; [assumption|].
      rewrite Forall_forall in *. intros y Hy.
      apply compare_lt_trans with k; auto.
    + constructor; [auto|].
      rewrite Forall_forall in *. intros y Hy.
      apply insert_key_In in Hy. destruct Hy as [-> | Hy]; auto.
      now apply compare_gt_lt.
Qed.

Lemma group_keys_sorted (l : list string) : Spec.strictly_increasing (group_keys l).
Proof.
  induction l as [|x l IH]; simpl.
  - constructor.
  - now apply insert_key_sorted.
Qed.

Lemma strictly_increasing_NoDup (ks : list string) :
  Spec.strictly_increasing ks -> NoDup ks.
Proof.
  induction 1 as [|k ks Hs IH Hall]; constructor; auto.
  intros Hin. rewrite Forall_forall in Hall.
  now apply (compare_lt_irrefl k), Hall.
Qed.

End GroupKeys.

Section Counting.

Variable sensitive_events : list string.
Variable access_logs : DataFrame.

Local Abbreviation counts :=
  (Insider_Threat_Detection.user_sensitive_event_counts sensitive_events
     access_logs).

Lemma filter_filter {A : Type} (f g : A -> bool) (l : list A) :
  filter f (filter g l) = filter (fun x => f x && g x) l.
Proof.
  induction l as [|x l IH]; simpl; [reflexivity|].
  destruct (g x) eqn:G; simpl.
  - destruct (f x); simpl; now rewrite IH.
  - rewrite IH. now rewrite andb_false_r.
Qed.

Lemma counts_unfold :
  counts =
  map (fun u => (u, Spec.sensitive_count sensitive_events access_logs u))
      (group_keys
         (map useridentity
              (filter (fun e => isin (eventtype e) sensitive_events)
                      access_logs))).
Proof.
  unfold Insider_Threat_Detection.user_sensitive_event_counts,
    count, groupby_useridentity, Spec.sensitive_count.
  rewrite map_map. apply map_ext. intros u.
  now rewrite filter_filter.
Qed.

Lemma counts_index :
  index counts =
  group_keys
    (map useridentity
         (filter (fun e => isin (eventtype e) sensitive_events) access_logs)).
Proof.
  rewrite counts_unfold. unfold index. rewrite map_map. simpl.
  apply map_id.
Qed.

Lemma sensitive_count_pos (u : string) :
  0 < Spec.sensitive_count sensitive_events access_logs u <->
  exists e, In e access_logs /\ useridentity e = u
            /\ isin (eventtype e) sensitive_events = true.
Proof.
  unfold Spec.sensitive_count. split.
  - intros Hpos.
    destruct (filter _ access_logs) as [|e l] eqn:E; simpl in Hpos; [lia|].
    assert (Hin : In e (filter
      (fun e => (useridentity e =? u)%string
                && isin (eventtype e) sensitive_events) access_logs))
      by (rewrite E; now left).
    apply filter_In in Hin. destruct Hin as [Hin Hb].
    apply andb_true_iff in Hb. destruct Hb as [Hu Hs].
    apply String.eqb_eq in Hu. eauto.
  - intros [e [Hin [Hu Hs]]].
    assert (Hin' : In e (filter
      (fun e => (useridentity e =? u)%string
                && isin (eventtype e) sensitive_events) access_logs)).
    { apply filter_In. split; [assumption|].
      rewrite Hs, andb_true_r. now apply String.eqb_eq. }
    destruct (filter _ access_logs); simpl in *; [contradiction | lia].
Qed.

Lemma counts_In (u : string) (c : Z) :
  In (u, c) counts <->
  c = Spec.sensitive_count sensitive_events access_logs u /\ 0 < c.
Proof.
  rewrite counts_unfold, in_map_iff. split.
  - intros [v [Heq Hin]]. inversion Heq; subst. split; [reflexivity|].
    apply group_keys_In, in_map_iff in Hin.
    destruct Hin as [e [Hu He]]. apply filter_In in He.
    apply sensitive_count_pos. exists e. tauto.
  - intros [-> Hpos]. exists u. split; [reflexivity|].
    apply sensitive_count_pos in Hpos. destruct Hpos as [e [Hin [Hu Hs]]].
    apply group_keys_In, in_map_iff. exists e. split; [assumption|].
    apply filter_In. tauto.
Qed.

Lemma counts_index_NoDup : NoDup (index counts).
Proof.
  rewrite counts_index.
  apply strictly_increasing_NoDup, group_keys_sorted.
Qed.

End Counting.

(* ================================================================== *)
(** ** The threshold test without square roots *)
(* ================================================================== *)

Section ThresholdTest.

Import Decide.
Open Scope R_scope.

Lemma sum_sq_dev_nonneg (m : R) (l : list Z) : 0 <= sum_sq_dev m l.
Proof.
  induction l as [|x l IH]; simpl; [lra|].
  pose proof (Rle_0_sqr (IZR x - m)) as H. unfold Rsqr in H. lra.
Qed.

Lemma sum_sq_dev_expand (m : R) (l : list Z) :
  sum_sq_dev m l =
  IZR (sum_sq l) - 2 * m * IZR (sum l)
  + IZR (Z.of_nat (List.length l)) * (m * m).
Proof.
  induction l as [|x l IH].
  - simpl. ring.
  - change (sum_sq_dev m (x :: l))
      with ((IZR x - m) * (IZR x - m) + sum_sq_dev m l).
    change (sum_sq (x :: l)) with (x * x + sum_sq l)%Z.
    change (sum (x :: l)) with (x + sum l)%Z.
    change (List.length (x :: l)) with (S (List.length l)).
    rewrite IH, Nat2Z.inj_succ, succ_IZR, !plus_IZR, mult_IZR. ring.
Qed.

(** Comparing with [k * t] when [t] is known through its square. *)
Lemma surd_test_nonneg (L k t : R) :
  0 <= t -> 0 <= k -> (L > k * t <-> 0 < L /\ k * k * (t * t) < L * L).
Proof.
  intros Ht Hk.
  assert (Hkt : 0 <= k * t) by nra.
  split.
  - intros H. split; nra.
  - intros [HL Hsq].
    destruct (Rlt_le_dec (k * t) L) as [|Hle]; [lra|]. nra.
Qed.

Lemma surd_test_neg (L k t : R) :
  0 <= t -> k < 0 -> (L > k * t <-> 0 < L \/ L * L < k * k * (t * t)).
Proof.
  intros Ht Hk.
  assert (Hkt : k * t <= 0) by nra.
  split.
  - intros H. destruct (Rlt_le_dec 0 L) as [|Hle]; [now left|right]. nra.
  - intros [HL | Hsq]; [lra|].
    destruct (Rlt_le_dec (k * t) L) as [|Hle]; [lra|]. nra.
Qed.

Lemma exceedsb_spec (k : Z) (l : list Z) (c : Z) :
  (2 <= Z.of_nat (List.length l))%Z ->
  exceedsb k l c = true <->
  IZR c >
  IZR (sum l) / IZR (Z.of_nat (List.length l))
  + IZR k * sqrt (sum_sq_dev (IZR (sum l) / IZR (Z.of_nat (List.length l))) l
                  / IZR (Z.of_nat (List.length l) - 1)).
Proof.
  intros Hn.
  unfold exceedsb.
  set (n := Z.of_nat (List.length l)) in *.
  destruct (Z.leb_spec n 1) as [Hle|_]; [lia|].
  set (s := sum l). set (q := sum_sq l).
  assert (HnR : 2 <= IZR n) by now apply IZR_le.
  pose proof (sum_sq_dev_nonneg (IZR s / IZR n) l) as Hdev.
  pose proof (sum_sq_dev_expand (IZR s / IZR n) l) as Hexp.
  fold n s q in Hexp.
  set (dev := sum_sq_dev (IZR s / IZR n) l) in *.
  assert (Hdev' : IZR n * dev = IZR n * IZR q - IZR s * IZR s).
  { rewrite Hexp. field. lra. }
  rewrite minus_IZR.
  set (v := dev / (IZR n - 1)).
  assert (Hv : 0 <= v).
  { unfold v. apply Rmult_le_pos; [assumption|].
    apply Rlt_le, Rinv_0_lt_compat. lra. }
  pose proof (sqrt_pos v) as Hsig.
  pose proof (sqrt_sqrt v Hv) as Hsq.
  set (sig := sqrt v) in *.
  set (N := IZR n * (IZR n - 1)).
  assert (HN : 0 < N) by (unfold N; nra).
  set (t := N * sig).
  assert (Ht : 0 <= t) by (unfold t; nra).
  assert (Htt : t * t = IZR (n * (n - 1) * (n * q - s * s))).
  { rewrite !mult_IZR, !minus_IZR, !mult_IZR. unfold t.
    replace (N * sig * (N * sig)) with (N * N * (sig * sig)) by ring.
    rewrite Hsq. unfold v, N.
    replace (IZR n * IZR q - IZR s * IZR s) with (IZR n * dev) by lra.
    field. lra. }
  assert (HL : IZR ((n * c - s) * (n - 1)) = N * (IZR c - IZR s / IZR n)).
  { rewrite !mult_IZR, !minus_IZR, mult_IZR. unfold N. field. lra. }
  assert (Hgoal : IZR c > IZR s / IZR n + IZR k * sig <->
                  IZR ((n * c - s) * (n - 1)) > IZR k * t).
  { rewrite HL. unfold t. split; intros H; nra. }
  rewrite Hgoal.
  destruct (Z.leb_spec 0 k) as [Hk|Hk].
  - rewrite surd_test_nonneg by (try assumption; now apply IZR_le).
    rewrite Htt, andb_true_iff, !Z.ltb_lt.
    rewrite <- !mult_IZR. split; intros [H1 H2]; split;
      first [now apply IZR_lt | now apply lt_IZR].
  - rewrite surd_test_neg by (try assumption; now apply IZR_lt).
    rewrite Htt, orb_true_iff, !Z.ltb_lt.
    rewrite <- !mult_IZR. split; intros [H|H];
      first [left; now apply IZR_lt | left; now apply lt_IZR
            | right; now apply IZR_lt | right; now apply lt_IZR].
Qed.

Lemma gt_threshold_exceedsb (k : Z) (counts : Series Z) (c : Z) :
  gt c (Insider_Threat_Detection.threshold (IZR k) counts)
  = exceedsb k (values counts) c.
Proof.
  unfold Insider_Threat_Detection.threshold.
  destruct (Z.leb_spec (Z.of_nat (List.length (values counts))) 1) as [Hle|Hgt].
  - assert (Hstd : std (values counts) = NaN).
    { unfold std. destruct (Z.leb_spec (Z.of_nat (List.length (values counts))) 1);
        [reflexivity | lia]. }
    rewrite Hstd. unfold exceedsb.
    destruct (Z.leb_spec (Z.of_nat (List.length (values counts))) 1); [|lia].
    destruct (mean (values counts)); reflexivity.
  - pose proof (exceedsb_spec k (values counts) c ltac:(lia)) as Hspec.
    unfold std, mean.
    destruct (Z.leb_spec (Z.of_nat (List.length (values counts))) 1); [lia|].
    destruct (values counts) as [|x l] eqn:E; [simpl in Hgt; lia|].
    simpl fmul. simpl fadd. unfold gt.
    destruct (Rgt_dec _ _) as [Hr|Hr].
    + symmetry. now apply Hspec.
    + destruct (exceedsb k (x :: l) c) eqn:Eb; [|reflexivity].
      exfalso. apply Hr. now apply Hspec.
Qed.

Lemma suspected_insiders_exceedsb (k : Z) (counts : Series Z) :
  Insider_Threat_Detection.suspected_insiders (IZR k) counts
  = filter (fun uc => exceedsb k (values counts) (snd uc)) counts.
Proof.
  unfold Insider_Threat_Detection.suspected_insiders.
  apply filter_ext. intros uc. apply gt_threshold_exceedsb.
Qed.

End ThresholdTest.

(* ================================================================== *)
(** ** Sorting *)
(* ================================================================== *)

Section Sorting.




Lemma insert_sorted_perm (e : Event) (l : DataFrame) :
  Permutation (insert_sorted e l) (e :: l).
Proof.
  induction l as [|x l IH]; simpl.
  - apply Permutation_refl.
  - destruct (key_leb e x).
    + apply Permutation_refl.
    + apply perm_trans with (x :: e :: l).
      * now apply perm_skip.
      * apply perm_swap.
Qed.

Lemma sort_values_perm (df : DataFrame) : Permutation (sort_values df) df.
Proof.
  induction df as [|e df IH]; simpl.
  - apply perm_nil.
  - apply perm_trans with (e :: sort_values df).
    + apply insert_sorted_perm.
    + now apply perm_skip.
Qed.




End Sorting.

(* ================================================================== *)
(** ** Hour windows *)
(* ================================================================== *)

Section Windows.







Variable access_logs : DataFrame.
Variable u : string.

Local Abbreviation group :=
  (filter (fun e => String.eqb (useridentity e) u) access_logs).






End Windows.

(* ================================================================== *)
(** ** Runs on a well-formed log file *)
(* ================================================================== *)

Section WellFormedRuns.

Variable fs : FileSystem.
Variable access_logs_file : string.
Variable sensitive_events : list string.
Variable csv : CsvFile.
Variable access_logs : DataFrame.

Hypothesis reaches_scoring :
  Spec.loads fs access_logs_file sensitive_events csv access_logs.

Lemma guard_passes :
  (String.eqb access_logs_file "" || Nat.eqb (List.length sensitive_events) 0)
  = false.
Proof.
  destruct reaches_scoring as [Hfile [Hevents _]].
  apply orb_false_iff. split.
  - now apply String.eqb_neq.
  - destruct sensitive_events; [contradiction | reflexivity].
Qed.

Lemma read_csv_ok : read_csv fs access_logs_file = Ok csv.
Proof.
  destruct reaches_scoring as [_ [_ [Hfs [Hcol _]]]].
  unfold read_csv. rewrite Hfs.
  destruct (columns csv); [discriminate | reflexivity].
Qed.

Lemma run_script1 (start_date end_date : option Timestamp)
    (threshold_factor : R) :
  Insider_Threat_Detection.run fs access_logs_file sensitive_events
    start_date end_date threshold_factor
  = match Insider_Threat_Detection.user_sensitive_event_counts
            sensitive_events
            (Insider_Threat_Detection.filter_period
               (Insider_Threat_Detection.start_date_or_default start_date)
               (Insider_Threat_Detection.end_date_or_default end_date)
               access_logs) with
    | _ :: _ =>
        Insider_Threat_Detection.Suspects
          (Insider_Threat_Detection.suspected_insiders threshold_factor
             (Insider_Threat_Detection.user_sensitive_event_counts
                sensitive_events
                (Insider_Threat_Detection.filter_period
                   (Insider_Threat_Detection.start_date_or_default start_date)
                   (Insider_Threat_Detection.end_date_or_default end_date)
                   access_logs)))
    | [] => Insider_Threat_Detection.NoSensitiveEvents
    end.
Proof.
  unfold Insider_Threat_Detection.run, Insider_Threat_Detection.try_block.
  rewrite guard_passes, read_csv_ok.
  destruct reaches_scoring as [_ [_ [_ [H1 [H2 [H3 Hparse]]]]]].
  unfold getitem. simpl bind. rewrite H1. simpl bind.
  rewrite Hparse. simpl bind. rewrite H2, H3. simpl bind.
  destruct (Insider_Threat_Detection.user_sensitive_event_counts _ _);
    reflexivity.
Qed.

Lemma run_script2 (lateral_threshold : Z)
    (start_date end_date : option Timestamp) (threshold_factor : R) :
  Inside_Threat_Detection.run fs access_logs_file sensitive_events
    lateral_threshold start_date end_date threshold_factor
  = let period :=
      Inside_Threat_Detection.filter_period
        (Inside_Threat_Detection.start_date_or_default start_date)
        (Inside_Threat_Detection.end_date_or_default end_date)
        access_logs in
    match Inside_Threat_Detection.user_sensitive_event_counts
            sensitive_events period with
    | _ :: _ =>
        if isin "system" (columns csv)
        then Inside_Threat_Detection.correlate lateral_threshold
               (Inside_Threat_Detection.suspected_insiders threshold_factor
                  (Inside_Threat_Detection.user_sensitive_event_counts
                     sensitive_events period))
               period
        else Inside_Threat_Detection.Caught (KeyError "system")
    | [] => Inside_Threat_Detection.NoSensitiveEvents
    end.
Proof.
  unfold Inside_Threat_Detection.run, Inside_Threat_Detection.try_block.
  rewrite guard_passes, read_csv_ok.
  destruct reaches_scoring as [_ [_ [_ [H1 [H2 [H3 Hparse]]]]]].
  unfold getitem. simpl bind. rewrite H1. simpl bind.
  rewrite Hparse. simpl bind. rewrite H2, H3. simpl bind.
  destruct (Inside_Threat_Detection.user_sensitive_event_counts _ _);
    [reflexivity|].
  destruct (isin "system" (columns csv)); reflexivity.
Qed.

End WellFormedRuns.

Section Inversion.

Variable fs : FileSystem.
Variable access_logs_file : string.
Variable sensitive_events : list string.
Variables start_date end_date : option Timestamp.
Variable threshold_factor : R.

(** A call that is not caught by the guard or by an exception handler
    reached scoring. *)
Lemma script1_reaches_scoring (x : Insider_Threat_Detection.Exit) :
  Insider_Threat_Detection.run fs access_logs_file sensitive_events
    start_date end_date threshold_factor = x ->
  (x = Insider_Threat_Detection.InvalidInput)
  \/ (exists e, x = Insider_Threat_Detection.Caught e)
  \/ (exists csv access_logs,
        Spec.loads fs access_logs_file sensitive_events csv access_logs).
Proof.
  unfold Insider_Threat_Detection.run, Insider_Threat_Detection.try_block,
    read_csv, getitem, Spec.loads.
  destruct (String.eqb_spec access_logs_file "") as [Hf|Hf];
    [intros <-; now left|].
  destruct sensitive_events as [|s0 ss] eqn:Es; [intros <-; now left|].
  cbn [List.length Nat.eqb orb].
  destruct (fs access_logs_file) as [csv|]; [|intros <-; right; left; eexists; reflexivity].
  destruct (columns csv) as [|c0 cs] eqn:Ec; [intros <-; right; left; eexists; reflexivity|].
  cbn [bind].
  destruct (isin "eventtime" (columns csv)) eqn:H1;
    [|intros <-; right; left; eexists; reflexivity].
  cbn [bind].
  destruct (to_datetime (records csv)) as [logs|e] eqn:Hp;
    [|intros <-; right; left; eexists; reflexivity].
  cbn [bind].
  destruct (isin "eventtype" (columns csv)) eqn:H2;
    [|intros <-; right; left; eexists; reflexivity].
  cbn [bind].
  destruct (isin "useridentity" (columns csv)) eqn:H3;
    [|intros <-; right; left; eexists; reflexivity].
  intros _. right; right. exists csv, logs.
  repeat split; auto; discriminate.
Qed.

Variable lateral_threshold : Z.

Lemma script2_reaches_scoring (x : Inside_Threat_Detection.Exit) :
  Inside_Threat_Detection.run fs access_logs_file sensitive_events
    lateral_threshold start_date end_date threshold_factor = x ->
  (x = Inside_Threat_Detection.InvalidInput)
  \/ (exists e, x = Inside_Threat_Detection.Caught e)
  \/ (exists csv access_logs,
        Spec.loads fs access_logs_file sensitive_events csv access_logs).
Proof.
  unfold Inside_Threat_Detection.run, Inside_Threat_Detection.try_block,
    read_csv, getitem, Spec.loads.
  destruct (String.eqb_spec access_logs_file "") as [Hf|Hf];
    [intros <-; now left|].
  destruct sensitive_events as [|s0 ss] eqn:Es; [intros <-; now left|].
  cbn [List.length Nat.eqb orb].
  destruct (fs access_logs_file) as [csv|]; [|intros <-; right; left; eexists; reflexivity].
  destruct (columns csv) as [|c0 cs] eqn:Ec; [intros <-; right; left; eexists; reflexivity|].
  cbn [bind].
  destruct (isin "eventtime" (columns csv)) eqn:H1;
    [|intros <-; right; left; eexists; reflexivity].
  cbn [bind].
  destruct (to_datetime (records csv)) as [logs|e] eqn:Hp;
    [|intros <-; right; left; eexists; reflexivity].
  cbn [bind].
  destruct (isin "eventtype" (columns csv)) eqn:H2;
    [|intros <-; right; left; eexists; reflexivity].
  cbn [bind].
  destruct (isin "useridentity" (columns csv)) eqn:H3;
    [|intros <-; right; left; eexists; reflexivity].
  intros _. right; right. exists csv, logs.
  repeat split; auto; discriminate.
Qed.

End Inversion.

(* ================================================================== *)
(** ** The scoring stage *)
(* ================================================================== *)

Section Scoring.

Lemma std_nonneg (l : list Z) (x : R) : std l = Fin x -> (0 <= x)%R.
Proof.
  unfold std. destruct (Z.of_nat (List.length l) <=? 1); [discriminate|].
  intros H. inversion H. apply sqrt_pos.
Qed.

Lemma std_short (l : list Z) : (List.length l < 2)%nat -> std l = NaN.
Proof.
  intros H. unfold std.
  destruct (Z.leb_spec (Z.of_nat (List.length l)) 1); [reflexivity | lia].
Qed.

Lemma threshold_short (f : R) (counts : Series Z) :
  (List.length counts < 2)%nat ->
  Insider_Threat_Detection.threshold f counts = NaN.
Proof.
  intros H. unfold Insider_Threat_Detection.threshold.
  rewrite std_short by (unfold values; now rewrite length_map).
  destruct (mean (values counts)); reflexivity.
Qed.

Lemma threshold_long (f : R) (counts : Series Z) :
  (2 <= List.length counts)%nat ->
  Insider_Threat_Detection.threshold f counts
  = let n := IZR (Z.of_nat (List.length counts)) in
    let avg := (IZR (sum (values counts)) / n)%R in
    Fin (avg + f * sqrt (sum_sq_dev avg (values counts) / (n - 1)))%R.
Proof.
  intros H. unfold Insider_Threat_Detection.threshold, mean, std.
  assert (Hlen : List.length (values counts) = List.length counts)
    by (unfold values; apply length_map).
  rewrite Hlen.
  destruct (Z.leb_spec (Z.of_nat (List.length counts)) 1); [lia|].
  destruct (values counts) eqn:E.
  - simpl in Hlen. lia.
  - cbn [fmul fadd]. now rewrite minus_IZR.
Qed.

Lemma gt_threshold_mono (f1 f2 : R) (counts : Series Z) (c : Z) :
  (f1 <= f2)%R ->
  gt c (Insider_Threat_Detection.threshold f2 counts) = true ->
  gt c (Insider_Threat_Detection.threshold f1 counts) = true.
Proof.
  intros Hf. unfold Insider_Threat_Detection.threshold.
  destruct (mean (values counts)) as [|m]; [discriminate|].
  destruct (std (values counts)) as [|s] eqn:Es; [discriminate|].
  apply std_nonneg in Es. cbn [fmul fadd gt].
  destruct (Rgt_dec (IZR c) (m + f2 * s)) as [H2|]; [|discriminate].
  intros _. destruct (Rgt_dec (IZR c) (m + f1 * s)) as [|H1]; [reflexivity|].
  exfalso. apply H1. nra.
Qed.


End Scoring.

(* ================================================================== *)
(** ** Counts, threshold and suspects *)
(* ================================================================== *)


(** C5: with the count table fixed, raising [threshold_factor] never adds
    a suspect, in either script; and when the first script returns a
    suspect Series for the larger factor, it returns one for the smaller
    factor that contains it. *)
Theorem C5_threshold_monotone
    (counts : Series Z) (f1 f2 : R) :
  (f1 <= f2)%R ->
  incl (Insider_Threat_Detection.suspected_insiders f2 counts)
       (Insider_Threat_Detection.suspected_insiders f1 counts)
  /\ incl (Inside_Threat_Detection.suspected_insiders f2 counts)
          (Inside_Threat_Detection.suspected_insiders f1 counts)
  /\ (forall fs access_logs_file sensitive_events start_date end_date s2,
        Insider_Threat_Detection.identify_insider_threats fs
          access_logs_file sensitive_events start_date end_date f2
        = Some s2 ->
        exists s1,
          Insider_Threat_Detection.identify_insider_threats fs
            access_logs_file sensitive_events start_date end_date f1
          = Some s1
          /\ incl s2 s1).
Proof.
  intros Hf.
  assert (H : forall c,
             incl (Insider_Threat_Detection.suspected_insiders f2 c)
                  (Insider_Threat_Detection.suspected_insiders f1 c)).
  { intros c uc Hin.
    unfold Insider_Threat_Detection.suspected_insiders in *.
    apply filter_In in Hin. destruct Hin as [Hin Hgt].
    apply filter_In. split; [assumption|].
    now apply gt_threshold_mono with f2. }
  split; [exact (H counts)|]. split; [exact (H counts)|].
  intros fs access_logs_file sensitive_events start_date end_date s2.
  unfold Insider_Threat_Detection.identify_insider_threats.
  destruct (Insider_Threat_Detection.run fs access_logs_file
              sensitive_events start_date end_date f2)
    as [|s| |e] eqn:Hrun; cbn [Insider_Threat_Detection.returned];
    try discriminate.
  intros Hs. inversion Hs; subst s. clear Hs.
  destruct (script1_reaches_scoring _ _ _ _ _ _ _ Hrun)
    as [Hx | [[e Hx] | [csv [logs Hloads]]]]; try discriminate.
  rewrite (run_script1 _ _ _ _ _ Hloads) in Hrun.
  rewrite (run_script1 _ _ _ _ _ Hloads).
  destruct (Insider_Threat_Detection.user_sensitive_event_counts _ _)
    as [|uc rest]; [discriminate|].
  inversion Hrun. eexists. split; [reflexivity | apply H].
Qed.


Lemma suspected_NaN (f : R) (counts : Series Z) :
  Insider_Threat_Detection.threshold f counts = NaN ->
  Insider_Threat_Detection.suspected_insiders f counts = [].
Proof.
  intros H. unfold Insider_Threat_Detection.suspected_insiders. rewrite H.
  clear H. induction counts as [|uc l IH]; [reflexivity | exact IH].
Qed.

Lemma counts_short (sensitive_events : list string) (access_logs : DataFrame) :
  (forall u v,
      0 < Spec.sensitive_count sensitive_events access_logs u ->
      0 < Spec.sensitive_count sensitive_events access_logs v -> u = v) ->
  (List.length
     (Insider_Threat_Detection.user_sensitive_event_counts sensitive_events
        access_logs) < 2)%nat.
Proof.
  intros Hone.
  pose proof (counts_index_NoDup sensitive_events access_logs) as Hnd.
  pose proof (counts_In sensitive_events access_logs) as Hin.
  destruct (Insider_Threat_Detection.user_sensitive_event_counts
              sensitive_events access_logs) as [|[u1 c1] [|[u2 c2] l]];
    simpl; try lia.
  exfalso.
  assert (H1 : 0 < Spec.sensitive_count sensitive_events access_logs u1).
  { destruct (proj1 (Hin u1 c1)) as [<- ?]; [now left | assumption]. }
  assert (H2 : 0 < Spec.sensitive_count sensitive_events access_logs u2).
  { destruct (proj1 (Hin u2 c2)) as [<- ?]; [right; now left | assumption]. }
  specialize (Hone u1 u2 H1 H2). subst u2.
  simpl in Hnd. inversion Hnd as [|? ? Hnotin _]. apply Hnotin. now left.
Qed.

(** C3, as the scripts behave: when fewer than two distinct users have a
    sensitive event, the sample standard deviation is undefined ([NaN]), so
    is the threshold, and nobody is a suspect, whatever the factor: the
    first script returns [None] or an empty Series, the second [None]. *)
Theorem C3_fewer_than_two_users
    (sensitive_events : list string) (access_logs : DataFrame)
    (threshold_factor : R) :
  (forall u v,
      0 < Spec.sensitive_count sensitive_events access_logs u ->
      0 < Spec.sensitive_count sensitive_events access_logs v -> u = v) ->
  let counts1 :=
    Insider_Threat_Detection.user_sensitive_event_counts sensitive_events
      access_logs in
  let counts2 :=
    Inside_Threat_Detection.user_sensitive_event_counts sensitive_events
      access_logs in
  std (values counts1) = NaN
  /\ Insider_Threat_Detection.threshold threshold_factor counts1 = NaN
  /\ Insider_Threat_Detection.suspected_insiders threshold_factor counts1 = []
  /\ std (values counts2) = NaN
  /\ Inside_Threat_Detection.threshold threshold_factor counts2 = NaN
  /\ Inside_Threat_Detection.suspected_insiders threshold_factor counts2 = []
  /\ (forall fs access_logs_file lateral_threshold start_date end_date
             csv parsed,
        Spec.loads fs access_logs_file sensitive_events csv parsed ->
        access_logs
        = Inside_Threat_Detection.filter_period
            (Inside_Threat_Detection.start_date_or_default start_date)
            (Inside_Threat_Detection.end_date_or_default end_date) parsed ->
        (Insider_Threat_Detection.identify_insider_threats fs
           access_logs_file sensitive_events start_date end_date
           threshold_factor = None
         \/ Insider_Threat_Detection.identify_insider_threats fs
              access_logs_file sensitive_events start_date end_date
              threshold_factor = Some [])
        /\ Inside_Threat_Detection.identify_insider_threats fs
             access_logs_file sensitive_events lateral_threshold start_date
             end_date threshold_factor = None).
Proof.
  intros Hone counts1 counts2.
  pose proof (counts_short sensitive_events access_logs Hone) as Hlen.
  fold counts1 in Hlen.
  assert (Hstd : std (values counts1) = NaN).
  { apply std_short. unfold values. now rewrite length_map. }
  pose proof (threshold_short threshold_factor counts1 Hlen) as Hthr.
  pose proof (suspected_NaN threshold_factor counts1 Hthr) as Hsus.
  do 6 (split; [assumption|]).
  intros fs access_logs_file lateral_threshold start_date end_date csv parsed
         Hloads Hperiod.
  unfold Insider_Threat_Detection.identify_insider_threats,
    Inside_Threat_Detection.identify_insider_threats.
  rewrite (run_script1 _ _ _ _ _ Hloads), (run_script2 _ _ _ _ _ Hloads).
  cbv zeta.
  change (Insider_Threat_Detection.filter_period
            (Insider_Threat_Detection.start_date_or_default start_date)
            (Insider_Threat_Detection.end_date_or_default end_date) parsed)
    with (Inside_Threat_Detection.filter_period
            (Inside_Threat_Detection.start_date_or_default start_date)
            (Inside_Threat_Detection.end_date_or_default end_date) parsed).
  rewrite <- Hperiod. fold counts1. fold counts2.
  change counts2 with counts1.
  change (Inside_Threat_Detection.suspected_insiders threshold_factor counts1)
    with (Insider_Threat_Detection.suspected_insiders threshold_factor
            counts1).
  rewrite Hsus.
  destruct counts1 as [|uc rest]; cbn.
  - split; [now left | reflexivity].
  - split; [now right|].
    destruct (isin "system" (columns csv)); reflexivity.
Qed.

(* ================================================================== *)
(** ** The lateral-movement table *)
(* ================================================================== *)





(* ================================================================== *)
(** ** Correlation and the returned incidents *)
(* ================================================================== *)

Lemma combined_In (suspected : Series Z) (lateral : Series (option Z))
    (u : string) :
  In u (Inside_Threat_Detection.combined_suspects suspected lateral) <->
  In u (index suspected) /\ In u (index lateral).
Proof.
  unfold Inside_Threat_Detection.combined_suspects.
  rewrite filter_In, isin_In. tauto.
Qed.


Lemma incidents_sorted_In (combined : list string) (access_logs : DataFrame)
    (e : Event) :
  In e (Inside_Threat_Detection.incidents_sorted combined access_logs) <->
  In e access_logs /\ In (useridentity e) combined.
Proof.
  unfold Inside_Threat_Detection.incidents_sorted,
    Inside_Threat_Detection.incidents.
  split.
  - intros H. apply (Permutation_in _ (sort_values_perm _)) in H.
    apply filter_In in H. destruct H as [H1 H2]. apply isin_In in H2. tauto.
  - intros [H1 H2].
    apply (Permutation_in _ (Permutation_sym (sort_values_perm _))).
    apply filter_In. split; [assumption | now apply isin_In].
Qed.


Section Incidents.

Variable fs : FileSystem.
Variable access_logs_file : string.
Variable sensitive_events : list string.
Variable lateral_threshold : Z.
Variables start_date end_date : option Timestamp.
Variable threshold_factor : R.

(** What a call that returns incidents went through. *)
Lemma script2_incidents (df : DataFrame) :
  Inside_Threat_Detection.run fs access_logs_file sensitive_events
    lateral_threshold start_date end_date threshold_factor
  = Inside_Threat_Detection.Incidents df ->
  exists csv access_logs,
    Spec.loads fs access_logs_file sensitive_events csv access_logs
    /\ isin "system" (columns csv) = true
    /\ let period :=
         Inside_Threat_Detection.filter_period
           (Inside_Threat_Detection.start_date_or_default start_date)
           (Inside_Threat_Detection.end_date_or_default end_date)
           access_logs in
       let combined :=
         Inside_Threat_Detection.combined_suspects
           (Inside_Threat_Detection.suspected_insiders threshold_factor
              (Inside_Threat_Detection.user_sensitive_event_counts
                 sensitive_events period))
           (Inside_Threat_Detection.lateral_movement_suspects
              lateral_threshold period) in
       combined <> []
       /\ df = Inside_Threat_Detection.incidents_sorted combined period.
Proof.
  intros Hrun.
  destruct (script2_reaches_scoring _ _ _ _ _ _ _ _ Hrun)
    as [Hx | [[e Hx] | [csv [logs Hloads]]]]; try discriminate.
  exists csv, logs. split; [assumption|].
  rewrite (run_script2 _ _ _ _ _ Hloads) in Hrun. cbv zeta in Hrun.
  destruct (Inside_Threat_Detection.user_sensitive_event_counts _ _)
    as [|uc counts] eqn:Ec; [discriminate|].
  rewrite <- Ec in Hrun.
  destruct (isin "system" (columns csv)); [|discriminate].
  split; [reflexivity|]. cbv zeta.
  unfold Inside_Threat_Detection.correlate in Hrun.
  destruct (Inside_Threat_Detection.combined_suspects _ _) as [|u0 us];
    [discriminate|].
  inversion Hrun. split; [discriminate | reflexivity].
Qed.


End Incidents.



(* ================================================================== *)
(** ** Concrete runs *)
(* ================================================================== *)

Lemma suspected_insiders_exceedsb2 (k : Z) (counts : Series Z) :
  Inside_Threat_Detection.suspected_insiders (IZR k) counts
  = filter (fun uc => Decide.exceedsb k (values counts) (snd uc)) counts.
Proof. exact (suspected_insiders_exceedsb k counts). Qed.



Lemma tie_loads :
  Spec.loads (Examples.one_file "log.csv" Examples.tie_csv) "log.csv"
    ["read"%string] Examples.tie_csv Examples.tie_logs.
Proof. unfold Spec.loads. repeat split; try discriminate. Qed.

Lemma demo_loads :
  Spec.loads
    (Examples.one_file "your_real_access_logs.csv" Examples.demo_csv)
    "your_real_access_logs.csv" ["sensitive_read"; "sensitive_write"]%string
    Examples.demo_csv Examples.demo_logs.
Proof. unfold Spec.loads. repeat split; try discriminate. Qed.

(** Evaluation of a run of the second script with an integer factor. *)
Ltac evaluate_run2 Hloads :=
  rewrite (run_script2 _ _ _ _ _ Hloads); cbv zeta;
  try rewrite suspected_insiders_exceedsb2;
  vm_compute; reflexivity.




Lemma tie_run :
  Inside_Threat_Detection.run
    (Examples.one_file "log.csv" Examples.tie_csv) "log.csv"
    ["read"%string] 2 None None 0%R
  = Inside_Threat_Detection.Incidents
      [Examples.tie_first; Examples.tie_second].
Proof. evaluate_run2 tie_loads. Qed.

Lemma demo_run :
  Inside_Threat_Detection.run
    (Examples.one_file "your_real_access_logs.csv" Examples.demo_csv)
    "your_real_access_logs.csv" ["sensitive_read"; "sensitive_write"]%string
    5 None None 3%R
  = Inside_Threat_Detection.Incidents Examples.demo_incidents.
Proof. evaluate_run2 demo_loads. Qed.

(* ================================================================== *)
(** ** Whole runs *)
(* ================================================================== *)



(** C9, as the scripts behave: loading [Insider_Threat_Detection.py] only
    defines the function; loading [part_000] calls it once, on
    ['your_real_access_logs.csv'] with the two sensitive event types and
    the default arguments, and binds the result to [suspected_insiders]. *)
Theorem C9_module_load (fs : FileSystem) :
  Insider_Threat_Detection.load_module fs
  = [("identify_insider_threats"%string, GFunction)]
  /\ Spec.lookup "suspected_insiders"
       (Insider_Threat_Detection.load_module fs) = None
  /\ Spec.lookup "suspected_insiders"
       (Inside_Threat_Detection.load_module fs)
     = Some (GResult
               (Inside_Threat_Detection.identify_insider_threats fs
                  "your_real_access_logs.csv"
                  ["sensitive_read"; "sensitive_write"]%string
                  5 None None 3%R)).
Proof. repeat split. Qed.

(* ================================================================== *)
(** ** Where the scripts differ from the specification *)
(* ================================================================== *)

(** C3 as stated fails on a log in which one user has two sensitive
    events: the standard deviation of the one-entry count table is not 0
    and the threshold is not the mean. *)
Lemma C3_counterexample :
  Inside_Threat_Detection.user_sensitive_event_counts ["read"%string]
    Examples.solo_logs = [("alice"%string, 2)]
  /\ std (values [("alice"%string, 2)]) <> Fin 0%R
  /\ Inside_Threat_Detection.threshold 3%R [("alice"%string, 2)]
     <> mean (values [("alice"%string, 2)]).
Proof.
  split; [reflexivity|]. split.
  - rewrite std_short by (simpl; lia). discriminate.
  - change (Inside_Threat_Detection.threshold 3 [("alice"%string, 2)])
      with (Insider_Threat_Detection.threshold 3 [("alice"%string, 2)]).
    rewrite threshold_short by (simpl; lia). discriminate.
Qed.



(** C9 as stated fails for [part_000]: with a suitable log under the
    hard-wired name, loading the file runs the whole detection and leaves
    its incidents in the global [suspected_insiders]. *)
Lemma C9_counterexample :
  Spec.lookup "suspected_insiders"
    (Inside_Threat_Detection.load_module
       (Examples.one_file "your_real_access_logs.csv" Examples.demo_csv))
  = Some (GResult (Some Examples.demo_incidents))
  /\ Spec.lookup "suspected_insiders"
       (Inside_Threat_Detection.load_module Examples.no_files)
     = Some (GResult None).
Proof.
  split.
  - change (Spec.lookup "suspected_insiders"
              (Inside_Threat_Detection.load_module
                 (Examples.one_file "your_real_access_logs.csv"
                    Examples.demo_csv)))
      with (Some (GResult
                    (Inside_Threat_Detection.returned
                       (Inside_Threat_Detection.run
                          (Examples.one_file "your_real_access_logs.csv"
                             Examples.demo_csv)
                          "your_real_access_logs.csv"
                          ["sensitive_read"; "sensitive_write"]%string
                          5 None None 3%R)))).
    now rewrite demo_run.
  - reflexivity.
Qed.

(* ================================================================== *)
(** ** The theorems at concrete logs *)
(* ================================================================== *)

Lemma tie_identify :
  Inside_Threat_Detection.identify_insider_threats
    (Examples.one_file "log.csv" Examples.tie_csv) "log.csv"
    ["read"%string] 2 None None 0%R
  = Some [Examples.tie_first; Examples.tie_second].
Proof.
  unfold Inside_Threat_Detection.identify_insider_threats.
  now rewrite tie_run.
Qed.

Lemma solo_single_user (u v : string) :
  0 < Spec.sensitive_count ["read"%string] Examples.solo_logs u ->
  0 < Spec.sensitive_count ["read"%string] Examples.solo_logs v ->
  u = v.
Proof.
  assert (Halice : forall w,
             0 < Spec.sensitive_count ["read"%string] Examples.solo_logs w ->
             w = "alice"%string).
  { intros w Hw. apply sensitive_count_pos in Hw.
    destruct Hw as [e [Hin [Hu Hs]]].
    simpl in Hin. destruct Hin as [<- | [<- | [<- | []]]];
      simpl in Hu, Hs; solve [now symmetry | discriminate]. }
  intros Hu Hv. now rewrite (Halice u Hu), (Halice v Hv).
Qed.



(** C3 on a log whose only user with sensitive events is alice. *)
Lemma C3_witness :
  Inside_Threat_Detection.threshold 3%R
    (Inside_Threat_Detection.user_sensitive_event_counts ["read"%string]
       Examples.solo_logs) = NaN
  /\ Inside_Threat_Detection.suspected_insiders 3%R
       (Inside_Threat_Detection.user_sensitive_event_counts ["read"%string]
          Examples.solo_logs) = [].
Proof.
  pose proof (C3_fewer_than_two_users ["read"%string] Examples.solo_logs 3%R
                solo_single_user) as H.
  cbv zeta in H. tauto.
Defined.


(** C5 on a three-user count table, for the factors 1 and 2. *)
Lemma C5_witness :
  (1 <= 2)%R
  /\ incl (Inside_Threat_Detection.suspected_insiders 2%R
             [("alice", 5); ("bob", 1); ("carol", 1)]%string)
          (Inside_Threat_Detection.suspected_insiders 1%R
             [("alice", 5); ("bob", 1); ("carol", 1)]%string).
Proof.
  assert (Hf : (1 <= 2)%R) by lra.
  split; [exact Hf|].
  apply (C5_threshold_monotone
           [("alice", 5); ("bob", 1); ("carol", 1)]%string 1%R 2%R Hf).
Defined.





(* ================================================================== *)
(** ** Error paths *)
(* ================================================================== *)

Lemma to_datetime_raise (rs : list RawRecord) (e : Exception) :
  to_datetime rs = Raise e <->
  e = ValueError /\ exists r, In r rs /\ raw_eventtime r = None.
Proof.
  induction rs as [|r rs IH]; simpl.
  - split; [discriminate | intros [_ [r [[] _]]]].
  - destruct (raw_eventtime r) as [t|] eqn:Et.
    + destruct (to_datetime rs) as [logs|e'] eqn:Ed; simpl.
      * split; [discriminate|].
        intros [He [r' [[<- | Hin] Hr']]]; [congruence|].
        assert (H : Ok logs = Raise e) by (apply IH; eauto).
        discriminate.
      * split.
        -- intros H. inversion H; subst e'.
           destruct (proj1 IH eq_refl) as [He [r' [Hin Hr']]]. eauto.
        -- intros [He [r' [[<- | Hin] Hr']]]; [congruence|].
           f_equal. symmetry.
           assert (H : Raise e' = Raise e) by (apply IH; eauto).
           now inversion H.
    + split.
      * intros H. inversion H. eauto.
      * intros [-> _]. reflexivity.
Qed.

Section Traces.

Variable fs : FileSystem.
Variable access_logs_file : string.
Variable sensitive_events : list string.
Variables start_date end_date : option Timestamp.
Variable threshold_factor : R.

(** The first script as a decision tree: which test sends the call to
    which [return]. *)
Lemma script1_trace :
  Insider_Threat_Detection.run fs access_logs_file sensitive_events
    start_date end_date threshold_factor
  = if String.eqb access_logs_file ""
       || Nat.eqb (List.length sensitive_events) 0
    then Insider_Threat_Detection.InvalidInput
    else
      match fs access_logs_file with
      | None => Insider_Threat_Detection.Caught FileNotFoundError
      | Some csv =>
          match columns csv with
          | [] => Insider_Threat_Detection.Caught EmptyDataError
          | _ :: _ =>
              if negb (isin "eventtime" (columns csv))
              then Insider_Threat_Detection.Caught (KeyError "eventtime")
              else
                match to_datetime (records csv) with
                | Raise e => Insider_Threat_Detection.Caught e
                | Ok access_logs =>
                    if negb (isin "eventtype" (columns csv))
                    then Insider_Threat_Detection.Caught
                           (KeyError "eventtype")
                    else if negb (isin "useridentity" (columns csv))
                    then Insider_Threat_Detection.Caught
                           (KeyError "useridentity")
                    else
                      let counts :=
                        Insider_Threat_Detection.user_sensitive_event_counts
                          sensitive_events
                          (Insider_Threat_Detection.filter_period
                             (Insider_Threat_Detection.start_date_or_default
                                start_date)
                             (Insider_Threat_Detection.end_date_or_default
                                end_date)
                             access_logs) in
                      match counts with
                      | [] => Insider_Threat_Detection.NoSensitiveEvents
                      | _ :: _ =>
                          Insider_Threat_Detection.Suspects
                            (Insider_Threat_Detection.suspected_insiders
                               threshold_factor counts)
                      end
                end
          end
      end.
Proof.
  unfold Insider_Threat_Detection.run, Insider_Threat_Detection.try_block,
    read_csv, getitem.
  destruct (_ || _); [reflexivity|].
  destruct (fs access_logs_file) as [csv|]; [|reflexivity].
  destruct (columns csv) as [|c0 cs] eqn:Ec; [reflexivity|].
  cbn [bind]. rewrite Ec.
  destruct (isin "eventtime" (c0 :: cs)); [|reflexivity]. cbn [bind negb].
  destruct (to_datetime (records csv)) as [logs|e]; [|reflexivity].
  cbn [bind].
  destruct (isin "eventtype" (c0 :: cs)); [|reflexivity]. cbn [bind negb].
  destruct (isin "useridentity" (c0 :: cs)); [|reflexivity]. cbn [bind negb].
  cbv zeta.
  destruct (Insider_Threat_Detection.user_sensitive_event_counts _ _);
    reflexivity.
Qed.

Variable lateral_threshold : Z.

(** The same for the second script. *)
Lemma script2_trace :
  Inside_Threat_Detection.run fs access_logs_file sensitive_events
    lateral_threshold start_date end_date threshold_factor
  = if String.eqb access_logs_file ""
       || Nat.eqb (List.length sensitive_events) 0
    then Inside_Threat_Detection.InvalidInput
    else
      match fs access_logs_file with
      | None => Inside_Threat_Detection.Caught FileNotFoundError
      | Some csv =>
          match columns csv with
          | [] => Inside_Threat_Detection.Caught EmptyDataError
          | _ :: _ =>
              if negb (isin "eventtime" (columns csv))
              then Inside_Threat_Detection.Caught (KeyError "eventtime")
              else
                match to_datetime (records csv) with
                | Raise e => Inside_Threat_Detection.Caught e
                | Ok access_logs =>
                    if negb (isin "eventtype" (columns csv))
                    then Inside_Threat_Detection.Caught
                           (KeyError "eventtype")
                    else if negb (isin "useridentity" (columns csv))
                    then Inside_Threat_Detection.Caught
                           (KeyError "useridentity")
                    else
                      let period :=
                        Inside_Threat_Detection.filter_period
                          (Inside_Threat_Detection.start_date_or_default
                             start_date)
                          (Inside_Threat_Detection.end_date_or_default
                             end_date)
                          access_logs in
                      let counts :=
                        Inside_Threat_Detection.user_sensitive_event_counts
                          sensitive_events period in
                      match counts with
                      | [] => Inside_Threat_Detection.NoSensitiveEvents
                      | _ :: _ =>
                          if negb (isin "system" (columns csv))
                          then Inside_Threat_Detection.Caught
                                 (KeyError "system")
                          else
                            Inside_Threat_Detection.correlate
                              lateral_threshold
                              (Inside_Threat_Detection.suspected_insiders
                                 threshold_factor counts)
                              period
                      end
                end
          end
      end.
Proof.
  unfold Inside_Threat_Detection.run, Inside_Threat_Detection.try_block,
    read_csv, getitem.
  destruct (_ || _); [reflexivity|].
  destruct (fs access_logs_file) as [csv|]; [|reflexivity].
  destruct (columns csv) as [|c0 cs] eqn:Ec; [reflexivity|].
  cbn [bind]. rewrite Ec.
  destruct (isin "eventtime" (c0 :: cs)); [|reflexivity]. cbn [bind negb].
  destruct (to_datetime (records csv)) as [logs|e]; [|reflexivity].
  cbn [bind].
  destruct (isin "eventtype" (c0 :: cs)); [|reflexivity]. cbn [bind negb].
  destruct (isin "useridentity" (c0 :: cs)); [|reflexivity]. cbn [bind negb].
  cbv zeta.
  destruct (Inside_Threat_Detection.user_sensitive_event_counts _ _);
    [reflexivity|].
  destruct (isin "system" (c0 :: cs)); reflexivity.
Qed.

Lemma guard_iff :
  String.eqb access_logs_file "" || Nat.eqb (List.length sensitive_events) 0
  = true
  <-> access_logs_file = ""%string \/ sensitive_events = [].
Proof.
  rewrite orb_true_iff, String.eqb_eq, Nat.eqb_eq.
  destruct sensitive_events; simpl; intuition; discriminate.
Qed.

Lemma correlate_not_caught (suspected : Series Z) (period : DataFrame)
    (e : Exception) :
  Inside_Threat_Detection.correlate lateral_threshold suspected period
  <> Inside_Threat_Detection.Caught e.
Proof.
  unfold Inside_Threat_Detection.correlate.
  destruct (Inside_Threat_Detection.combined_suspects _ _); discriminate.
Qed.

Lemma correlate_not_invalid (suspected : Series Z) (period : DataFrame) :
  Inside_Threat_Detection.correlate lateral_threshold suspected period
  <> Inside_Threat_Detection.InvalidInput.
Proof.
  unfold Inside_Threat_Detection.correlate.
  destruct (Inside_Threat_Detection.combined_suspects _ _); discriminate.
Qed.

End Traces.

Ltac walk_trace :=
  cbv zeta;
  repeat match goal with
         | |- context [if ?b then _ else _] => destruct b eqn:?
         | |- context [match ?x with _ => _ end] => destruct x eqn:?
         end.

Ltac guard_facts :=
  repeat match goal with
         | H : (_ || _) = true |- _ => apply guard_iff in H
         | H : (String.eqb ?f "" || Nat.eqb (List.length ?s) 0) = false |- _ =>
             let Hf := fresh "Hfile" in
             let Hs := fresh "Hevents" in
             assert (Hf : f <> ""%string)
               by (intros ->; rewrite String.eqb_refl in H; discriminate);
             assert (Hs : s <> [])
               by (intros ->; rewrite orb_true_r in H; discriminate);
             clear H
         | H : negb _ = true |- _ => apply negb_true_iff in H
         | H : negb _ = false |- _ => apply negb_false_iff in H
         end.

(** X1: a call with an empty file name or an empty list of sensitive
    events leaves through the guard, whatever files exist, and returns
    [None]; no other call leaves that way.  Both scripts. *)
Theorem X1_invalid_arguments
    (fs : FileSystem) (access_logs_file : string)
    (sensitive_events : list string) (lateral_threshold : Z)
    (start_date end_date : option Timestamp) (threshold_factor : R) :
  (Insider_Threat_Detection.run fs access_logs_file sensitive_events
     start_date end_date threshold_factor
   = Insider_Threat_Detection.InvalidInput
   <-> access_logs_file = ""%string \/ sensitive_events = [])
  /\ (Inside_Threat_Detection.run fs access_logs_file sensitive_events
        lateral_threshold start_date end_date threshold_factor
      = Inside_Threat_Detection.InvalidInput
      <-> access_logs_file = ""%string \/ sensitive_events = []).
Proof.
  split.
  - rewrite script1_trace. walk_trace; guard_facts;
      (split; [try discriminate; auto | intros [? | ?]; congruence]).
  - rewrite script2_trace. walk_trace; guard_facts;
      (split; [try discriminate; auto | intros [? | ?]; try congruence]).
    all: intros H; now apply correlate_not_invalid in H.
Qed.

Ltac break_hyps :=
  repeat match goal with
         | H : _ /\ _ |- _ => destruct H
         | H : exists _, _ |- _ => destruct H
         | H : Some _ = Some _ |- _ => inversion H; subst; clear H
         end.

Ltac caught_iff :=
  split;
  [ let Hx := fresh "Hx" in
    intros Hx; try discriminate Hx;
    try (now apply correlate_not_caught in Hx);
    try (inversion Hx; subst);
    try match goal with
        | H : to_datetime _ = Raise _ |- _ =>
            apply to_datetime_raise in H; destruct H as [H _];
            try discriminate H
        end;
    repeat split; eauto; try congruence
  | let Hr := fresh "Hr" in
    intros Hr; break_hyps; try congruence;
    try match goal with
        | H : _ = ""%string \/ _ = [] |- _ => destruct H; contradiction
        end ].

(** X2: with valid arguments, the call ends in the [FileNotFoundError]
    handler exactly when no file has the given name, and in the
    [EmptyDataError] handler exactly when the file has nothing to parse.
    Both scripts. *)
Theorem X2_read_failures
    (fs : FileSystem) (access_logs_file : string)
    (sensitive_events : list string) (lateral_threshold : Z)
    (start_date end_date : option Timestamp) (threshold_factor : R) :
  let exit1 :=
    Insider_Threat_Detection.run fs access_logs_file sensitive_events
      start_date end_date threshold_factor in
  let exit2 :=
    Inside_Threat_Detection.run fs access_logs_file sensitive_events
      lateral_threshold start_date end_date threshold_factor in
  let valid := access_logs_file <> ""%string /\ sensitive_events <> [] in
  (exit1 = Insider_Threat_Detection.Caught FileNotFoundError
   <-> valid /\ fs access_logs_file = None)
  /\ (exit2 = Inside_Threat_Detection.Caught FileNotFoundError
      <-> valid /\ fs access_logs_file = None)
  /\ (exit1 = Insider_Threat_Detection.Caught EmptyDataError
      <-> valid /\ exists csv,
            fs access_logs_file = Some csv /\ columns csv = [])
  /\ (exit2 = Inside_Threat_Detection.Caught EmptyDataError
      <-> valid /\ exists csv,
            fs access_logs_file = Some csv /\ columns csv = []).
Proof.
  cbv zeta. rewrite script1_trace, script2_trace.
  split; [|split; [|split]]; walk_trace; guard_facts; caught_iff.
Qed.




(* ================================================================== *)
(** ** Edge cases of a run that reaches scoring *)
(* ================================================================== *)


Lemma script1_returns (fs : FileSystem) (access_logs_file : string)
    (sensitive_events : list string) (start_date end_date : option Timestamp)
    (threshold_factor : R) (s : Series Z) :
  Insider_Threat_Detection.identify_insider_threats fs access_logs_file
    sensitive_events start_date end_date threshold_factor = Some s
  <-> Insider_Threat_Detection.run fs access_logs_file sensitive_events
        start_date end_date threshold_factor
      = Insider_Threat_Detection.Suspects s.
Proof.
  unfold Insider_Threat_Detection.identify_insider_threats.
  destruct (Insider_Threat_Detection.run _ _ _ _ _ _);
    cbn [Insider_Threat_Detection.returned]; split; intros H;
    try discriminate H; now inversion H.
Qed.

Lemma script2_returns (fs : FileSystem) (access_logs_file : string)
    (sensitive_events : list string) (lateral_threshold : Z)
    (start_date end_date : option Timestamp)
    (threshold_factor : R) (df : DataFrame) :
  Inside_Threat_Detection.identify_insider_threats fs access_logs_file
    sensitive_events lateral_threshold start_date end_date threshold_factor
  = Some df
  <-> Inside_Threat_Detection.run fs access_logs_file sensitive_events
        lateral_threshold start_date end_date threshold_factor
      = Inside_Threat_Detection.Incidents df.
Proof.
  unfold Inside_Threat_Detection.identify_insider_threats.
  destruct (Inside_Threat_Detection.run _ _ _ _ _ _ _);
    cbn [Inside_Threat_Detection.returned]; split; intros H;
    try discriminate H; now inversion H.
Qed.



(* ================================================================== *)
(** ** Monotonicity and agreement of whole runs *)
(* ================================================================== *)

Lemma index_incl {V : Type} (s1 s2 : Series V) :
  incl s1 s2 -> incl (index s1) (index s2).
Proof.
  intros H u Hu. unfold index in *. apply in_map_iff in Hu.
  destruct Hu as [uv [<- Hin]]. apply in_map. now apply H.
Qed.

Lemma suspected_mono (f1 f2 : R) (counts : Series Z) :
  (f1 <= f2)%R ->
  incl (Inside_Threat_Detection.suspected_insiders f2 counts)
       (Inside_Threat_Detection.suspected_insiders f1 counts).
Proof.
  intros Hf uc Hin. unfold Inside_Threat_Detection.suspected_insiders in *.
  apply filter_In in Hin. destruct Hin as [Hin Hgt].
  apply filter_In. split; [assumption|].
  exact (gt_threshold_mono f1 f2 counts (snd uc) Hf Hgt).
Qed.

Lemma lateral_suspects_mono (t1 t2 : Z) (access_logs : DataFrame) :
  t1 <= t2 ->
  incl (Inside_Threat_Detection.lateral_movement_suspects t2 access_logs)
       (Inside_Threat_Detection.lateral_movement_suspects t1 access_logs).
Proof.
  intros Ht um Hin. unfold Inside_Threat_Detection.lateral_movement_suspects in *.
  apply filter_In in Hin. destruct Hin as [Hin Hge].
  apply filter_In. split; [assumption|].
  destruct (snd um) as [m|]; [|discriminate]. simpl in *.
  apply Z.leb_le. apply Z.leb_le in Hge. lia.
Qed.

(** X7: lowering [lateral_threshold] or [threshold_factor] never loses an
    incident: when the second script returns a frame for the larger
    values, it returns a frame for the smaller ones, and that frame holds
    every event of the first. *)
Theorem X7_thresholds_monotone
    (fs : FileSystem) (access_logs_file : string)
    (sensitive_events : list string) (t1 t2 : Z)
    (start_date end_date : option Timestamp) (f1 f2 : R) (df2 : DataFrame) :
  (f1 <= f2)%R ->
  t1 <= t2 ->
  Inside_Threat_Detection.identify_insider_threats fs access_logs_file
    sensitive_events t2 start_date end_date f2 = Some df2 ->
  exists df1,
    Inside_Threat_Detection.identify_insider_threats fs access_logs_file
      sensitive_events t1 start_date end_date f1 = Some df1
    /\ incl df2 df1.
Proof.
  intros Hf Ht Hret. apply script2_returns in Hret.
  destruct (script2_incidents _ _ _ _ _ _ _ _ Hret)
    as [csv [logs [Hloads [Hsys [Hne Hdf]]]]].
  cbv zeta in Hne, Hdf.
  set (period := Inside_Threat_Detection.filter_period
                   (Inside_Threat_Detection.start_date_or_default start_date)
                   (Inside_Threat_Detection.end_date_or_default end_date)
                   logs) in *.
  set (counts := Inside_Threat_Detection.user_sensitive_event_counts
                   sensitive_events period) in *.
  set (combined2 := Inside_Threat_Detection.combined_suspects
                      (Inside_Threat_Detection.suspected_insiders f2 counts)
                      (Inside_Threat_Detection.lateral_movement_suspects t2
                         period)) in *.
  set (combined1 := Inside_Threat_Detection.combined_suspects
                      (Inside_Threat_Detection.suspected_insiders f1 counts)
                      (Inside_Threat_Detection.lateral_movement_suspects t1
                         period)).
  assert (Hincl : incl combined2 combined1).
  { intros u Hu. apply combined_In in Hu. destruct Hu as [Hs Hl].
    apply combined_In. split.
    - exact (index_incl _ _ (suspected_mono f1 f2 counts Hf) u Hs).
    - exact (index_incl _ _ (lateral_suspects_mono t1 t2 period Ht) u Hl). }
  assert (Hcounts : counts <> []).
  { intros Hc. apply Hne. unfold combined2. now rewrite Hc. }
  exists (Inside_Threat_Detection.incidents_sorted combined1 period). split.
  - apply script2_returns.
    rewrite (run_script2 _ _ _ _ _ Hloads). cbv zeta. rewrite Hsys.
    fold period. fold counts.
    destruct counts as [|uc rest] eqn:Ec; [contradiction|].
    unfold Inside_Threat_Detection.correlate.
    fold combined1.
    destruct combined1 as [|u us] eqn:E1; [|reflexivity].
    destruct combined2 as [|u us]; [contradiction|].
    exfalso. apply (Hincl u). now left.
  - intros e He. rewrite Hdf in He.
    apply incidents_sorted_In in He. destruct He as [Hin Hu].
    apply incidents_sorted_In. split; [assumption | now apply Hincl].
Qed.

(** X8: whatever the second script returns as incidents, the first script,
    called with the same arguments, returns a non-empty suspect Series
    that lists the user of every returned event. *)
Theorem X8_scripts_agree_on_users
    (fs : FileSystem) (access_logs_file : string)
    (sensitive_events : list string) (lateral_threshold : Z)
    (start_date end_date : option Timestamp) (threshold_factor : R)
    (df : DataFrame) :
  Inside_Threat_Detection.identify_insider_threats fs access_logs_file
    sensitive_events lateral_threshold start_date end_date threshold_factor
  = Some df ->
  exists s,
    Insider_Threat_Detection.identify_insider_threats fs access_logs_file
      sensitive_events start_date end_date threshold_factor = Some s
    /\ s <> []
    /\ forall e, In e df -> In (useridentity e) (index s).
Proof.
  intros Hret. apply script2_returns in Hret.
  destruct (script2_incidents _ _ _ _ _ _ _ _ Hret)
    as [csv [logs [Hloads [Hsys [Hne Hdf]]]]].
  cbv zeta in Hne, Hdf.
  set (period := Inside_Threat_Detection.filter_period
                   (Inside_Threat_Detection.start_date_or_default start_date)
                   (Inside_Threat_Detection.end_date_or_default end_date)
                   logs) in *.
  set (counts := Inside_Threat_Detection.user_sensitive_event_counts
                   sensitive_events period) in *.
  set (suspected := Inside_Threat_Detection.suspected_insiders
                      threshold_factor counts) in *.
  assert (Hsus : suspected <> []).
  { intros Hs. apply Hne. now rewrite Hs. }
  assert (Hcounts : counts <> []).
  { intros Hc. apply Hsus. unfold suspected. now rewrite Hc. }
  exists suspected. split; [|split; [assumption|]].
  - apply script1_returns. rewrite (run_script1 _ _ _ _ _ Hloads).
    change (Insider_Threat_Detection.user_sensitive_event_counts
              sensitive_events
              (Insider_Threat_Detection.filter_period
                 (Insider_Threat_Detection.start_date_or_default start_date)
                 (Insider_Threat_Detection.end_date_or_default end_date)
                 logs)) with counts.
    destruct counts; [contradiction | reflexivity].
  - intros e He. rewrite Hdf in He.
    apply incidents_sorted_In in He. destruct He as [_ Hu].
    apply combined_In in Hu. tauto.
Qed.

(* ================================================================== *)
(** ** Shape of the tables *)
(* ================================================================== *)


Lemma index_functional {V : Type} (s : Series V) (u : string) (v v' : V) :
  NoDup (index s) -> In (u, v) s -> In (u, v') s -> v = v'.
Proof.
  unfold index. induction s as [|[k w] s IH]; simpl; intros Hnd H1 H2;
    [contradiction|].
  inversion Hnd as [|? ? Hnotin Hnd']; subst.
  destruct H1 as [H1 | H1], H2 as [H2 | H2].
  - congruence.
  - inversion H1; subst. exfalso. apply Hnotin.
    change u with (fst (u, v')). now apply in_map.
  - inversion H2; subst. exfalso. apply Hnotin.
    change u with (fst (u, v)). now apply in_map.
  - now apply IH.
Qed.



(* ================================================================== *)
(** ** How far above the mean a count can be *)
(* ================================================================== *)

Section Deviation.

Open Scope R_scope.

Lemma sum_app (l1 l2 : list Z) : sum (l1 ++ l2) = (sum l1 + sum l2)%Z.
Proof.
  induction l1 as [|x l1 IH]; simpl; [reflexivity|].
  unfold sum in *. simpl. rewrite IH. lia.
Qed.

Lemma sum_sq_dev_app (m : R) (l1 l2 : list Z) :
  sum_sq_dev m (l1 ++ l2) = sum_sq_dev m l1 + sum_sq_dev m l2.
Proof.
  induction l1 as [|x l1 IH]; simpl; [ring|].
  unfold sum_sq_dev in *. simpl. rewrite IH. ring.
Qed.

(** The square of a sum of deviations is at most their number times the
    sum of their squares. *)
Lemma deviations_cauchy (m : R) (l : list Z) :
  (IZR (sum l) - IZR (Z.of_nat (List.length l)) * m)
  * (IZR (sum l) - IZR (Z.of_nat (List.length l)) * m)
  <= IZR (Z.of_nat (List.length l)) * sum_sq_dev m l.
Proof.
  induction l as [|x l IH].
  - simpl. lra.
  - change (sum (x :: l)) with (x + sum l)%Z.
    change (sum_sq_dev m (x :: l))
      with ((IZR x - m) * (IZR x - m) + sum_sq_dev m l).
    change (List.length (x :: l)) with (S (List.length l)).
    rewrite Nat2Z.inj_succ, succ_IZR, plus_IZR.
    pose proof (sum_sq_dev_nonneg m l) as Hq.
    assert (Hk : 0 <= IZR (Z.of_nat (List.length l)))
      by (apply IZR_le; lia).
    set (k := IZR (Z.of_nat (List.length l))) in *.
    set (q := sum_sq_dev m l) in *.
    set (t := IZR (sum l) - k * m) in *.
    set (a := IZR x - m).
    replace (IZR x + IZR (sum l) - (k + 1) * m) with (a + t)
      by (unfold a, t; ring).
    pose proof (Rle_0_sqr (k * a - t)) as Hsq. unfold Rsqr in Hsq.
    destruct (Req_dec k 0) as [Hk0 | Hk0].
    + rewrite Hk0 in *. assert (Ht : t = 0) by nra. rewrite Ht. nra.
    + assert (Hkpos : 0 < k) by lra.
      assert (H2 : 2 * a * t <= k * (a * a) + q).
      { apply Rmult_le_reg_l with k; [assumption|]. nra. }
      nra.
Qed.

(** With [m] the mean, the squared deviation of one value is bounded by
    those of the others. *)
Lemma deviation_of_member (l : list Z) (c : Z) :
  In c l ->
  (2 <= Z.of_nat (List.length l))%Z ->
  let n := IZR (Z.of_nat (List.length l)) in
  let m := IZR (sum l) / n in
  n * ((IZR c - m) * (IZR c - m)) <= (n - 1) * sum_sq_dev m l.
Proof.
  intros Hin Hlen n m.
  apply in_split in Hin. destruct Hin as [l1 [l2 Hl]].
  assert (Hn : 2 <= n) by (unfold n; now apply IZR_le).
  pose proof (deviations_cauchy m (l1 ++ l2)) as Hcs.
  assert (Hlen' : IZR (Z.of_nat (List.length (l1 ++ l2))) = n - 1).
  { unfold n. rewrite Hl, !length_app. simpl.
    rewrite <- minus_IZR. f_equal. lia. }
  assert (Hsum : IZR (sum (l1 ++ l2)) = IZR (sum l) - IZR c).
  { rewrite Hl, !sum_app. change (sum (c :: l2)) with (c + sum l2)%Z.
    rewrite <- minus_IZR. f_equal. lia. }
  assert (Hdev : sum_sq_dev m (l1 ++ l2)
                 = sum_sq_dev m l - (IZR c - m) * (IZR c - m)).
  { rewrite Hl, !sum_sq_dev_app.
    change (sum_sq_dev m (c :: l2))
      with ((IZR c - m) * (IZR c - m) + sum_sq_dev m l2). ring. }
  rewrite Hlen', Hsum, Hdev in Hcs.
  assert (Hmean : IZR (sum l) = n * m) by (unfold m; field; lra).
  rewrite Hmean in Hcs.
  replace (n * m - IZR c - (n - 1) * m) with (- (IZR c - m)) in Hcs by ring.
  nra.
Qed.

(** A count above [mean + f * std] with [f >= 0] needs enough values. *)
Lemma population_bound (f : R) (counts : Series Z) :
  0 <= f ->
  Insider_Threat_Detection.suspected_insiders f counts <> [] ->
  let n := IZR (Z.of_nat (List.length counts)) in
  2 <= n /\ f * f * n < (n - 1) * (n - 1).
Proof.
  intros Hf Hne n.
  destruct (Nat.lt_ge_cases (List.length counts) 2) as [Hshort | Hlong].
  { exfalso. apply Hne. apply suspected_NaN. now apply threshold_short. }
  destruct (Insider_Threat_Detection.suspected_insiders f counts)
    as [|[u c] rest] eqn:Es; [contradiction|].
  assert (Hin : In (u, c) (Insider_Threat_Detection.suspected_insiders f
                             counts)) by (rewrite Es; now left).
  unfold Insider_Threat_Detection.suspected_insiders in Hin.
  apply filter_In in Hin. destruct Hin as [Hin Hgt]. simpl in Hgt.
  rewrite (threshold_long f counts Hlong) in Hgt. cbv zeta in Hgt.
  fold n in Hgt. cbn [gt] in Hgt.
  destruct (Rgt_dec _ _) as [Hc|]; [|discriminate]. clear Hgt.
  assert (Hlen : List.length (values counts) = List.length counts)
    by (unfold values; apply length_map).
  assert (Hn : 2 <= n) by (unfold n; apply IZR_le; lia).
  split; [assumption|].
  pose proof (deviation_of_member (values counts) c) as Hdev.
  rewrite Hlen in Hdev. cbv zeta in Hdev. fold n in Hdev.
  assert (Hc_in : In c (values counts)).
  { unfold values. change c with (snd (u, c)). now apply in_map. }
  specialize (Hdev Hc_in ltac:(lia)).
  set (m := IZR (sum (values counts)) / n) in *.
  pose proof (sum_sq_dev_nonneg m (values counts)) as HD.
  set (D := sum_sq_dev m (values counts)) in *.
  assert (Hv : 0 <= D / (n - 1)).
  { apply Rmult_le_pos; [assumption|].
    apply Rlt_le, Rinv_0_lt_compat. lra. }
  pose proof (sqrt_pos (D / (n - 1))) as Hs.
  pose proof (sqrt_sqrt (D / (n - 1)) Hv) as Hss.
  set (s := sqrt (D / (n - 1))) in *.
  set (d := IZR c - m) in *.
  assert (Hd : f * s < d) by (unfold d; lra).
  assert (Hfs : 0 <= f * s) by nra.
  assert (Hd2 : f * f * (s * s) < d * d) by nra.
  rewrite Hss in Hd2.
  assert (Hd3 : f * f * D < (n - 1) * (d * d)).
  { replace (f * f * (D / (n - 1))) with (f * f * D / (n - 1)) in Hd2
      by (field; lra).
    apply Rmult_lt_reg_r with (/ (n - 1));
      [apply Rinv_0_lt_compat; lra|].
    replace ((n - 1) * (d * d) * / (n - 1)) with (d * d) by (field; lra).
    exact Hd2. }
  assert (Hdpos : 0 < d * d) by nra.
  assert (HDpos : 0 < D) by nra.
  assert (Hall : f * f * n * D < (n - 1) * (n - 1) * D) by nra.
  apply Rmult_lt_reg_r with D; assumption.
Qed.

End Deviation.

Lemma sum_above (t : R) (l : list Z) :
  l <> [] ->
  (forall x, In x l -> (IZR x > t)%R) ->
  (IZR (sum l) > IZR (Z.of_nat (List.length l)) * t)%R.
Proof.
  induction l as [|x l IH]; intros Hne Hall; [contradiction|].
  change (sum (x :: l)) with (x + sum l).
  change (List.length (x :: l)) with (S (List.length l)).
  rewrite Nat2Z.inj_succ, succ_IZR, plus_IZR.
  pose proof (Hall x (or_introl eq_refl)) as Hx.
  destruct l as [|y l'].
  - simpl. lra.
  - assert (H : (IZR (sum (y :: l'))
                 > IZR (Z.of_nat (List.length (y :: l'))) * t)%R).
    { apply IH; [discriminate|]. intros z Hz. apply Hall. now right. }
    lra.
Qed.

Lemma some_fails {A : Type} (p : A -> bool) (l : list A) :
  (forall x, In x l -> p x = true) \/ (exists x, In x l /\ p x = false).
Proof.
  induction l as [|x l [IH | [y [Hy Hp]]]].
  - left. intros x [].
  - destruct (p x) eqn:E.
    + left. intros y [<- | Hy]; auto.
    + right. exists x. split; [now left | assumption].
  - right. exists y. split; [now right | assumption].
Qed.

Lemma threshold_above_mean (f : R) (counts : Series Z) (t : R) :
  (0 <= f)%R ->
  Insider_Threat_Detection.threshold f counts = Fin t ->
  (IZR (sum (values counts)) / IZR (Z.of_nat (List.length counts)) <= t)%R.
Proof.
  intros Hf Ht.
  destruct (Nat.lt_ge_cases (List.length counts) 2) as [Hshort | Hlong].
  { rewrite threshold_short in Ht by assumption. discriminate. }
  rewrite (threshold_long f counts Hlong) in Ht. cbv zeta in Ht.
  inversion Ht as [Heq]. clear Ht.
  match goal with
  | |- (_ <= _ + f * sqrt ?v)%R => pose proof (sqrt_pos v)
  end.
  nra.
Qed.

(** X11: with a non-negative factor every suspect's count is strictly
    above the mean of the count table, and the scorer never flags
    everybody: some user with a sensitive event stays outside the suspect
    Series.  Both scripts. *)
Theorem X11_never_everyone
    (sensitive_events : list string) (access_logs : DataFrame) (f : R) :
  (0 <= f)%R ->
  let counts :=
    Inside_Threat_Detection.user_sensitive_event_counts sensitive_events
      access_logs in
  let suspected1 := Insider_Threat_Detection.suspected_insiders f counts in
  let suspected2 := Inside_Threat_Detection.suspected_insiders f counts in
  counts <> [] ->
  suspected1 = suspected2
  /\ (forall u c,
        In (u, c) suspected2 ->
        (IZR c > IZR (sum (values counts))
                 / IZR (Z.of_nat (List.length counts)))%R)
  /\ exists u,
       0 < Spec.sensitive_count sensitive_events access_logs u
       /\ ~ In u (index suspected2).
Proof.
  intros Hf counts suspected1 suspected2 Hne.
  split; [reflexivity|].
  assert (Habove : forall u c,
             In (u, c) suspected2 ->
             exists t,
               Insider_Threat_Detection.threshold f counts = Fin t
               /\ (IZR c > t)%R).
  { intros u c Hin. apply filter_In in Hin. destruct Hin as [_ Hgt].
    simpl in Hgt.
    change (Inside_Threat_Detection.threshold f counts)
      with (Insider_Threat_Detection.threshold f counts) in Hgt.
    destruct (Insider_Threat_Detection.threshold f counts) as [|t];
      [discriminate|].
    exists t. split; [reflexivity|]. simpl in Hgt.
    destruct (Rgt_dec (IZR c) t); [assumption | discriminate]. }
  split.
  - intros u c Hin. destruct (Habove u c Hin) as [t [Ht Hc]].
    pose proof (threshold_above_mean f counts t Hf Ht). lra.
  - destruct (some_fails
                (fun uc => gt (snd uc)
                              (Insider_Threat_Detection.threshold f counts))
                counts) as [Hall | [[u c] [Hin Hp]]].
    + exfalso.
      destruct (Insider_Threat_Detection.threshold f counts) as [|t] eqn:Et.
      { destruct counts as [|uc rest]; [contradiction|].
        specialize (Hall uc (or_introl eq_refl)). discriminate. }
      pose proof (threshold_above_mean f counts t Hf Et) as Hmean.
      assert (Hsum : (IZR (sum (values counts))
                      > IZR (Z.of_nat (List.length (values counts))) * t)%R).
      { apply sum_above.
        - unfold values. destruct counts; [contradiction | discriminate].
        - intros x Hx. unfold values in Hx. apply in_map_iff in Hx.
          destruct Hx as [uc [<- Huc]]. specialize (Hall uc Huc).
          simpl in Hall.
          destruct (Rgt_dec (IZR (snd uc)) t); [assumption | discriminate]. }
      unfold values in Hsum at 2. rewrite length_map in Hsum.
      assert (Hn : (1 <= IZR (Z.of_nat (List.length counts)))%R).
      { apply IZR_le. destruct counts; [contradiction | simpl; lia]. }
      set (n := IZR (Z.of_nat (List.length counts))) in *.
      set (S := IZR (sum (values counts))) in *.
      assert (HS : (S = n * (S / n))%R) by (field; lra).
      nra.
    + exists u. split.
      * apply (counts_In sensitive_events access_logs) in Hin. lia.
      * intros Hu. unfold index in Hu. apply in_map_iff in Hu.
        destruct Hu as [[k c'] [Hk Hin']]. simpl in Hk. subst k.
        apply filter_In in Hin'. destruct Hin' as [Hin' Hgt].
        assert (c = c').
        { apply (index_functional counts u); try assumption.
          apply counts_index_NoDup. }
        subst c'. simpl in Hp, Hgt.
        change (Inside_Threat_Detection.threshold f counts)
          with (Insider_Threat_Detection.threshold f counts) in Hgt.
        congruence.
Qed.


(** X13: a call with [threshold_factor >= 3], the default included, that
    returns suspects (first script) or incidents (second script) has read
    a period in which at least 11 distinct users have sensitive events. *)
Theorem X13_default_factor_needs_eleven_users
    (fs : FileSystem) (access_logs_file : string)
    (sensitive_events : list string) (lateral_threshold : Z)
    (start_date end_date : option Timestamp) (f : R) :
  (3 <= f)%R ->
  (exists s,
      Insider_Threat_Detection.identify_insider_threats fs access_logs_file
        sensitive_events start_date end_date f = Some s /\ s <> [])
  \/ (exists df,
        Inside_Threat_Detection.identify_insider_threats fs access_logs_file
          sensitive_events lateral_threshold start_date end_date f
        = Some df) ->
  exists csv access_logs,
    Spec.loads fs access_logs_file sensitive_events csv access_logs
    /\ (11 <= List.length
                (Inside_Threat_Detection.user_sensitive_event_counts
                   sensitive_events
                   (Inside_Threat_Detection.filter_period
                      (Inside_Threat_Detection.start_date_or_default
                         start_date)
                      (Inside_Threat_Detection.end_date_or_default end_date)
                      access_logs)))%nat.
Proof.
  intros H3 Hret.
  assert (Hf : (0 <= f)%R) by lra.
  assert (Heleven : forall counts,
             Insider_Threat_Detection.suspected_insiders f counts <> [] ->
             (11 <= List.length counts)%nat).
  { intros counts Hne.
    destruct (population_bound f counts Hf Hne) as [Hn Hb].
    assert (Hff : (9 <= f * f)%R) by nra.
    assert (H9 : (9 * IZR (Z.of_nat (List.length counts))
                  < (IZR (Z.of_nat (List.length counts)) - 1)
                    * (IZR (Z.of_nat (List.length counts)) - 1))%R).
    { eapply Rle_lt_trans; [|exact Hb].
      apply Rmult_le_compat_r; lra. }
    rewrite <- (minus_IZR _ 1), <- !mult_IZR in H9. apply lt_IZR in H9.
    apply le_IZR in Hn. nia. }
  destruct Hret as [[s [Hs Hne]] | [df Hdf]].
  - apply script1_returns in Hs.
    destruct (script1_reaches_scoring _ _ _ _ _ _ _ Hs)
      as [Hx | [[e Hx] | [csv [logs Hloads]]]]; try discriminate.
    exists csv, logs. split; [assumption|].
    rewrite (run_script1 _ _ _ _ _ Hloads) in Hs.
    destruct (Insider_Threat_Detection.user_sensitive_event_counts _ _)
      as [|uc rest] eqn:Ec; [discriminate|].
    rewrite <- Ec in Hs. inversion Hs as [Hs']. apply Heleven.
    change (Inside_Threat_Detection.user_sensitive_event_counts
              sensitive_events
              (Inside_Threat_Detection.filter_period
                 (Inside_Threat_Detection.start_date_or_default start_date)
                 (Inside_Threat_Detection.end_date_or_default end_date)
                 logs))
      with (Insider_Threat_Detection.user_sensitive_event_counts
              sensitive_events
              (Insider_Threat_Detection.filter_period
                 (Insider_Threat_Detection.start_date_or_default start_date)
                 (Insider_Threat_Detection.end_date_or_default end_date)
                 logs)).
    now rewrite Hs'.
  - apply script2_returns in Hdf.
    destruct (script2_incidents _ _ _ _ _ _ _ _ Hdf)
      as [csv [logs [Hloads [_ [Hne _]]]]].
    exists csv, logs. split; [assumption|]. cbv zeta in Hne.
    apply Heleven. intros Hs. apply Hne.
    change (Inside_Threat_Detection.suspected_insiders f
              (Inside_Threat_Detection.user_sensitive_event_counts
                 sensitive_events
                 (Inside_Threat_Detection.filter_period
                    (Inside_Threat_Detection.start_date_or_default start_date)
                    (Inside_Threat_Detection.end_date_or_default end_date)
                    logs)))
      with (Insider_Threat_Detection.suspected_insiders f
              (Inside_Threat_Detection.user_sensitive_event_counts
                 sensitive_events
                 (Inside_Threat_Detection.filter_period
                    (Inside_Threat_Detection.start_date_or_default start_date)
                    (Inside_Threat_Detection.end_date_or_default end_date)
                    logs))).
    now rewrite Hs.
Qed.

(* ================================================================== *)
(** ** The further theorems at concrete logs *)
(* ================================================================== *)


Lemma demo_identify :
  Inside_Threat_Detection.identify_insider_threats
    (Examples.one_file "your_real_access_logs.csv" Examples.demo_csv)
    "your_real_access_logs.csv" ["sensitive_read"; "sensitive_write"]%string
    5 None None 3%R
  = Some Examples.demo_incidents.
Proof.
  unfold Inside_Threat_Detection.identify_insider_threats.
  now rewrite demo_run.
Qed.




(** X7 on the log with the tie: from threshold 2 and factor 0 down to
    threshold 1 and factor -1. *)
Lemma X7_witness :
  exists df1,
    Inside_Threat_Detection.identify_insider_threats
      (Examples.one_file "log.csv" Examples.tie_csv) "log.csv"
      ["read"%string] 1 None None (-1)%R = Some df1
    /\ incl [Examples.tie_first; Examples.tie_second] df1.
Proof.
  apply (X7_thresholds_monotone _ _ _ 1 2 None None (-1)%R 0%R
           [Examples.tie_first; Examples.tie_second]).
  - lra.
  - lia.
  - exact tie_identify.
Defined.

(** X8 on the log with the tie. *)
Lemma X8_witness :
  exists s,
    Insider_Threat_Detection.identify_insider_threats
      (Examples.one_file "log.csv" Examples.tie_csv) "log.csv"
      ["read"%string] None None 0%R = Some s
    /\ s <> []
    /\ forall e,
         In e [Examples.tie_first; Examples.tie_second] ->
         In (useridentity e) (index s).
Proof.
  apply (X8_scripts_agree_on_users _ _ _ 2 None None 0%R _ tie_identify).
Defined.


(** X11 on the log with the tie, for factor 0. *)
Lemma X11_witness :
  exists u,
    0 < Spec.sensitive_count ["read"%string] Examples.tie_logs u
    /\ ~ In u (index (Inside_Threat_Detection.suspected_insiders 0%R
                        (Inside_Threat_Detection.user_sensitive_event_counts
                           ["read"%string] Examples.tie_logs))).
Proof.
  assert (Hf : (0 <= 0)%R) by lra.
  pose proof (X11_never_everyone ["read"%string] Examples.tie_logs 0%R Hf)
    as H.
  cbv zeta in H. apply H. vm_compute. discriminate.
Defined.



(** X13 on the same log, read through the second script. *)
Lemma X13_witness :
  exists csv access_logs,
    Spec.loads
      (Examples.one_file "your_real_access_logs.csv" Examples.demo_csv)
      "your_real_access_logs.csv"
      ["sensitive_read"; "sensitive_write"]%string csv access_logs
    /\ (11 <= List.length
                (Inside_Threat_Detection.user_sensitive_event_counts
                   ["sensitive_read"; "sensitive_write"]%string
                   (Inside_Threat_Detection.filter_period
                      (Inside_Threat_Detection.start_date_or_default None)
                      (Inside_Threat_Detection.end_date_or_default None)
                      access_logs)))%nat.
Proof.
  assert (H3 : (3 <= 3)%R) by lra.
  apply (X13_default_factor_needs_eleven_users _ _ _ 5 None None 3%R H3).
  right. exists Examples.demo_incidents. exact demo_identify.
Defined.
